(** * backtrader_plotting.utils: clock alignment and plot-id lookup

    A shallow embedding of [convert_to_master_clock] and [find_by_plotid]
    from [backtrader_plotting/utils.py].

    Timestamps and line values are Python floats: they are modelled by the
    primitive binary64 floats, whose [==] and [<] are the IEEE comparisons
    Python uses (NaN is equal to nothing, not even to itself).  Python
    integers (indices, lengths) are [Z].  A Python call either returns a
    value or raises; this is the [outcome] type below. *)

From Stdlib Require Import List ZArith Lia Bool String Ascii Sorted.
From Stdlib Require Import PrimFloat.
Import ListNotations.

Local Open Scope Z_scope.

(** ** Python outcomes *)

Inductive exn : Type :=
| IndexError
| RuntimeError (msg : string).

Inductive outcome (A : Type) : Type :=
| Returns (a : A)
| Raises (e : exn).

Arguments Returns {A} a.
Arguments Raises {A} e.

Definition bind {A B : Type} (m : outcome A) (k : A -> outcome B) : outcome B :=
  match m with
  | Returns a => k a
  | Raises e => Raises e
  end.

Notation "x <- m ;; k" := (bind m (fun x => k))
  (at level 61, m at next level, right associativity).

(** ** The Python list operations the module uses *)

Module Py.

(** [len(l)] *)
Definition len {A : Type} (l : list A) : Z := Z.of_nat (List.length l).

(** [l[idx]]: a negative index counts from the end; an index outside
    [-len(l) .. len(l)-1] raises IndexError. *)
Definition getitem {A : Type} (l : list A) (idx : Z) : outcome A :=
  let j := if idx <? 0 then idx + len l else idx in
  if (0 <=? j) && (j <? len l) then
    match nth_error l (Z.to_nat j) with
    | Some x => Returns x
    | None => Raises IndexError
    end
  else Raises IndexError.

(** [range(a, b)] as the list of the indices it yields. *)
Definition range (a b : Z) : list Z :=
  map (fun k => a + Z.of_nat k) (seq 0 (Z.to_nat (b - a))).

(** [l.append(x)], as the new contents of [l]. *)
Definition append {A : Type} (l : list A) (x : A) : list A := l ++ [x].

End Py.

(** ** convert_to_master_clock *)

(** [float('nan')] *)
Definition float_nan : float := PrimFloat.nan.

(** The local variables the two loops of [convert_to_master_clock] update. *)
Record locals : Type := mkLocals {
  new_line : list float;
  next_start_idx : Z;
  found : bool
}.

Definition set_found (st : locals) (b : bool) : locals :=
  {| new_line := new_line st; next_start_idx := next_start_idx st; found := b |}.

Section Align.

Variables line line_clk : list float.
Variable clk_offset : Z.
Variable fill_by_prev : bool.

(** The inner loop, [for i in range(next_start_idx, len(line_clk))], run
    over the indices [idxs] that are left. *)
Fixpoint scan (sc : float) (idxs : list Z) (st : locals) : outcome locals :=
  match idxs with
  | [] => Returns st
  | i :: rest =>
      v <- Py.getitem line_clk i ;;
      if PrimFloat.eqb sc v then
        (* exact hit *)
        let line_idx := i - clk_offset in
        nl <- (if line_idx <? 0 then
                 Returns (Py.append (new_line st) float_nan)
               else
                 x <- Py.getitem line line_idx ;;
                 Returns (Py.append (new_line st) x)) ;;
        Returns {| new_line := nl; next_start_idx := i + 1; found := true |}
      else if PrimFloat.ltb sc v then
        (* v > sc: no need to keep searching *)
        Returns st
      else scan sc rest st
  end.

(** The body of the outer loop, for one entry [sc] of the master clock. *)
Definition step (sc : float) (st : locals) : outcome locals :=
  st1 <- scan sc (Py.range (next_start_idx st) (Py.len line_clk))
              (set_found st false) ;;
  if negb (found st1) then
    fill_v <- (if (0 <? Py.len (new_line st1)) && fill_by_prev then
                 Py.getitem (new_line st1) (-1)
               else Returns float_nan) ;;
    Returns {| new_line := Py.append (new_line st1) fill_v;
               next_start_idx := next_start_idx st1;
               found := found st1 |}
  else Returns st1.

(** The outer loop, [for sc in master_clock]. *)
Fixpoint for_master (master_clock : list float) (st : locals) : outcome locals :=
  match master_clock with
  | [] => Returns st
  | sc :: rest => st1 <- step sc st ;; for_master rest st1
  end.

End Align.

Definition init_locals : locals :=
  {| new_line := []; next_start_idx := 0; found := false |}.

(** [master_clock] is [None] for Python's [None]. *)
Definition convert_to_master_clock (line line_clk : list float)
    (master_clock : option (list float)) (fill_by_prev : bool)
    : outcome (list float) :=
  match master_clock with
  | None => Returns line
  | Some mc =>
      let clk_offset := Py.len line_clk - Py.len line in
      st <- for_master line line_clk clk_offset fill_by_prev mc init_locals ;;
      Returns (new_line st)
  end.

(** The state of the locals once the entries [mc] of the master clock have
    been processed. *)
Definition locals_after (line line_clk : list float) (fill_by_prev : bool)
    (mc : list float) : outcome locals :=
  for_master line line_clk (Py.len line_clk - Py.len line) fill_by_prev mc
    init_locals.

(** ** The same routine over a store of list objects

    Python lists are objects: [return line] hands back the caller's own
    list, [new_line = []] creates a new one and [append] updates it in
    place.  A [heap] holds the contents of every list object, a [ref] is the
    position of an object in it.  The code below is the code above with every
    list reached through its reference. *)

Module Store.

Definition ref : Type := nat.
Definition heap : Type := list (list float).

(** The contents of the object [r] (no object: no items). *)
Definition contents (h : heap) (r : ref) : list float := nth r h [].

(** [[]]: a new empty list object, at the first unused reference. *)
Definition new_list (h : heap) : ref * heap := (List.length h, h ++ [[]]).

Fixpoint store (h : heap) (r : ref) (l : list float) : heap :=
  match h, r with
  | [], _ => []
  | _ :: h', O => l :: h'
  | x :: h', S r' => x :: store h' r' l
  end.

(** [r.append(x)]: the object [r] is updated in place. *)
Definition append (h : heap) (r : ref) (x : float) : heap :=
  store h r (Py.append (contents h r) x).

Record locals : Type := mkLocals {
  new_line : ref;
  next_start_idx : Z;
  found : bool
}.

Definition set_found (st : locals) (b : bool) : locals :=
  {| new_line := new_line st; next_start_idx := next_start_idx st;
     found := b |}.

Section Align.

Variables line line_clk : ref.
Variable clk_offset : Z.
Variable fill_by_prev : bool.

Fixpoint scan (sc : float) (idxs : list Z) (st : locals) (h : heap)
  : outcome (locals * heap) :=
  match idxs with
  | [] => Returns (st, h)
  | i :: rest =>
      v <- Py.getitem (contents h line_clk) i ;;
      if PrimFloat.eqb sc v then
        let line_idx := i - clk_offset in
        h1 <- (if line_idx <? 0 then
                 Returns (append h (new_line st) float_nan)
               else
                 x <- Py.getitem (contents h line) line_idx ;;
                 Returns (append h (new_line st) x)) ;;
        Returns ({| new_line := new_line st; next_start_idx := i + 1;
                    found := true |}, h1)
      else if PrimFloat.ltb sc v then Returns (st, h)
      else scan sc rest st h
  end.

Definition step (sc : float) (st : locals) (h : heap)
  : outcome (locals * heap) :=
  r1 <- scan sc (Py.range (next_start_idx st)
                   (Py.len (contents h line_clk)))
          (set_found st false) h ;;
  let (st1, h1) := r1 in
  if negb (found st1) then
    fill_v <- (if (0 <? Py.len (contents h1 (new_line st1)))
                    && fill_by_prev then
                 Py.getitem (contents h1 (new_line st1)) (-1)
               else Returns float_nan) ;;
    Returns (st1, append h1 (new_line st1) fill_v)
  else Returns (st1, h1).

(** [for sc in master_clock]: the list iterator keeps a position [k]
    and, at each turn, stops when [k] has reached the current length of
    the list and yields item [k] otherwise.  [fuel] bounds the number of
    turns; [None] means that it ran out. *)
Fixpoint for_master (fuel : nat) (master_clock : ref) (k : Z)
    (st : locals) (h : heap) : option (outcome (locals * heap)) :=
  match fuel with
  | O => None
  | S fuel' =>
      if k <? Py.len (contents h master_clock) then
        match (sc <- Py.getitem (contents h master_clock) k ;;
               step sc st h) with
        | Returns (st1, h1) => for_master fuel' master_clock (k + 1) st1 h1
        | Raises e => Some (Raises e)
        end
      else Some (Returns (st, h))
  end.

End Align.

(** The call returns a reference and leaves a heap. *)
Definition convert_to_master_clock (fuel : nat) (h : heap)
    (line line_clk : ref) (master_clock : option ref) (fill_by_prev : bool)
    : option (outcome (ref * heap)) :=
  match master_clock with
  | None => Some (Returns (line, h))
  | Some mc =>
      let clk_offset :=
        Py.len (contents h line_clk) - Py.len (contents h line) in
      let (nl, h0) := new_list h in
      match for_master line line_clk clk_offset fill_by_prev fuel mc 0
              {| new_line := nl; next_start_idx := 0; found := false |} h0
      with
      | Some (Returns (st, h1)) => Some (Returns (new_line st, h1))
      | Some (Raises e) => Some (Raises e)
      | None => None
      end
  end.

End Store.

(** ** find_by_plotid *)

(** The values a [plotid] takes: [None] or a string. *)
Inductive pyval : Type :=
| PNone
| PStr (s : string).

(** Python's [==] on these values. *)
Definition pyval_eqb (a b : pyval) : bool :=
  match a, b with
  | PNone, PNone => true
  | PStr s, PStr t => String.eqb s t
  | _, _ => false
  end.

(** [str(v)] *)
Definition pyval_str (v : pyval) : string :=
  match v with
  | PNone => "None"
  | PStr s => s
  end.

(** A [plotinfo] object; [plotid_attr] is [None] when it has no attribute
    [plotid]. *)
Record plotinfo_t : Type := mkPlotinfo {
  plotid_attr : option pyval
}.

(** [getattr(pi, 'plotid', default)] *)
Definition getattr_plotid (pi : plotinfo_t) (default : pyval) : pyval :=
  match plotid_attr pi with
  | Some v => v
  | None => default
  end.

(** A data feed, indicator or observer, known by its identity [oid]. *)
Record bt_obj : Type := mkObj {
  oid : nat;
  plotinfo : plotinfo_t
}.

Record strategy_t : Type := mkStrategy {
  datas : list bt_obj;
  getindicators : list bt_obj;
  getobservers : list bt_obj
}.

(** [itertools.chain(strategy.datas, strategy.getindicators(),
    strategy.getobservers())] *)
Definition chain_objs (strategy : strategy_t) : list bt_obj :=
  datas strategy ++ getindicators strategy ++ getobservers strategy.

(** The test of the loop: the object carries the searched [plotid]. *)
Definition has_plotid (plotid : pyval) (obj : bt_obj) : bool :=
  pyval_eqb (getattr_plotid (plotinfo obj) PNone) plotid.

(** The loop [for obj in objs], appending the hits to [founds]. *)
Fixpoint collect (plotid : pyval) (objs founds : list bt_obj) : list bt_obj :=
  match objs with
  | [] => founds
  | obj :: rest =>
      if has_plotid plotid obj then collect plotid rest (Py.append founds obj)
      else collect plotid rest founds
  end.

Definition dquote : string := String (ascii_of_nat 34) EmptyString.

Definition multiple_msg (plotid : pyval) : string :=
  ("Found multiple objects with plotid " ++ dquote ++ pyval_str plotid
   ++ dquote)%string.

(** The result is [None] for Python's [None]. *)
Definition find_by_plotid (strategy : strategy_t) (plotid : pyval)
    : outcome (option bt_obj) :=
  let objs := chain_objs strategy in
  let founds := collect plotid objs [] in
  let num_results := Py.len founds in
  if num_results =? 0 then Returns None
  else if num_results =? 1 then
    obj <- Py.getitem founds 0 ;; Returns (Some obj)
  else Raises (RuntimeError (multiple_msg plotid)).

(** ** Vocabulary of the statements *)

(** What the exact-hit branch appends for a hit at index [i] of the clock:
    NaN when the corrected index is negative, the item of [line] at the
    corrected index otherwise. *)
Definition emitted (line : list float) (clk_offset i : Z) : float :=
  if i - clk_offset <? 0 then float_nan
  else nth (Z.to_nat (i - clk_offset)) line float_nan.

(** What the not-found branch appends to the output [nl]. *)
Definition fill_value (fill_by_prev : bool) (nl : list float) : float :=
  if (0 <? Py.len nl) && fill_by_prev then last nl float_nan else float_nan.

(** The scan for [sc] goes past the clock entry [w]: it is neither equal to
    [sc] nor greater. *)
Definition passed (sc w : float) : Prop :=
  PrimFloat.eqb sc w = false /\ PrimFloat.ltb sc w = false.

(** The locals after an exact hit at index [i], and after no hit. *)
Definition hit_locals (line : list float) (clk_offset : Z) (st : locals)
    (i : Z) : locals :=
  {| new_line := new_line st ++ [emitted line clk_offset i];
     next_start_idx := i + 1; found := true |}.

Definition miss_locals (fill_by_prev : bool) (st : locals) : locals :=
  {| new_line := new_line st ++ [fill_value fill_by_prev (new_line st)];
     next_start_idx := next_start_idx st; found := false |}.

(** An index of the clock. *)
Definition inbounds (line_clk : list float) (i : Z) : Prop :=
  0 <= i < Py.len line_clk.

(** The locals and the heap of the store version that stand for the locals
    [st] of the routine: the output list is the one object after those of
    [h]. *)
Definition lift (h : Store.heap) (st : locals) : Store.locals * Store.heap :=
  ({| Store.new_line := List.length h;
      Store.next_start_idx := next_start_idx st;
      Store.found := found st |},
   h ++ [new_line st]).

(** A value of the output is NaN or an item of [line]. *)
Definition from_line (line : list float) (x : float) : Prop :=
  x = float_nan \/
  exists k, 0 <= k < Py.len line /\ Py.getitem line k = Returns x.

(** ** nanfilt *)

(** [[value for value in x if not math.isnan(value)]] *)
Definition nanfilt (x : list float) : list float :=
  filter (fun value => negb (PrimFloat.is_nan value)) x.

(** ** Results of the formatting and tabulation helpers

    These helpers can raise more than the two exceptions above: a
    TypeError of Python itself, an exception raised by the routine above,
    or whatever a call into backtrader or pandas raises. *)

Inductive type_error : Type :=
| NotIterable                (* iteration over None *)
| JoinItemNotStr (i : nat).  (* str.join: sequence item i is not a str *)

Inductive raised : Type :=
| TypeError (why : type_error)
| Raised (e : exn)
| External (what : string).

Inductive result (A : Type) : Type :=
| Ok (a : A)
| Err (e : raised).

Arguments Ok {A} a.
Arguments Err {A} e.

Definition rbind {A B : Type} (m : result A) (k : A -> result B) : result B :=
  match m with
  | Ok a => k a
  | Err e => Err e
  end.

Notation "x <~ m ;; k" := (rbind m (fun x => k))
  (at level 61, m at next level, right associativity).

Definition of_outcome {A : Type} (m : outcome A) : result A :=
  match m with
  | Returns a => Ok a
  | Raises e => Err (Raised e)
  end.

(** ** paramval2str and the parameter helpers *)

#[local] Set Warnings "-register-all".

(** The parameter values the formatter tells apart: None, a float, a list,
    a tuple, a class (known by its [__name__]), a string, and any other
    object (an int, a bool, ...), known by its [str()]. *)
Inductive value : Type :=
| VNone
| VFloat (x : float)
| VList (items : list value)
| VTuple (items : list value)
| VType (name : string)
| VStr (s : string)
| VOther (str : string).

(** The strings of the items of a sequence handed to [str.join], from the
    item number [i] on; the first item that is not a str raises. *)
Fixpoint join_items (i : nat) (items : list value) : result (list string) :=
  match items with
  | [] => Ok []
  | VStr s :: rest => ss <~ join_items (S i) rest ;; Ok (s :: ss)
  | _ :: _ => Err (TypeError (JoinItemNotStr i))
  end.

(** [sep.join(items)] *)
Definition str_join (sep : string) (items : list value) : result string :=
  ss <~ join_items 0 items ;; Ok (String.concat sep ss).

Section Formatting.

(** [bt.TimeFrame.getname(value, 1)] and the format [f"{value:.2f}"]. *)
Variable getname : value -> result string.
Variable format_2f : float -> string.

Definition paramval2str (name : string) (v : value) : result string :=
  match v with
  | VNone => Ok "None"%string
  | _ =>
      if String.eqb name "timeframe" then getname v
      else
        match v with
        | VFloat x => Ok (format_2f x)
        | VList items | VTuple items => str_join "," items
        | VType n => Ok n
        | VNone => Ok "None"%string
        | VStr s | VOther s => Ok s
        end
  end.

(** A Python dict with str keys: the items in insertion order; setting a
    key that is present replaces its value in place. *)
Definition dict : Type := list (string * value).

Fixpoint dict_setitem (d : dict) (k : string) (v : value) : dict :=
  match d with
  | [] => [(k, v)]
  | (k', v') :: rest =>
      if String.eqb k' k then (k', v) :: rest
      else (k', v') :: dict_setitem rest k v
  end.

Fixpoint dict_get (d : dict) (k : string) : option value :=
  match d with
  | [] => None
  | (k', v') :: rest => if String.eqb k' k then Some v' else dict_get rest k
  end.

(** A backtrader params object, by the three methods the helpers call. *)
Record params_t : Type := mkParams {
  _getkeys : list string;
  _get : string -> value;
  isdefault : string -> bool
}.

(** [{key: params._get(key) for key in keys if not params.isdefault(key)}],
    continued from the dict [d]. *)
Fixpoint nondefault_from (params : params_t) (keys : list string) (d : dict)
    : dict :=
  match keys with
  | [] => d
  | key :: rest =>
      if negb (isdefault params key) then
        nondefault_from params rest (dict_setitem d key (_get params key))
      else nondefault_from params rest d
  end.

Definition get_nondefault_params (params : params_t) : dict :=
  nondefault_from params (_getkeys params) [].

(** [{key: params._get(key) for key in keys}], continued from [d]. *)
Fixpoint all_from (params : params_t) (keys : list string) (d : dict) : dict :=
  match keys with
  | [] => d
  | key :: rest => all_from params rest (dict_setitem d key (_get params key))
  end.

Definition get_params (params : params_t) : dict :=
  all_from params (_getkeys params) [].

(** [[f"{x}: {paramval2str(x, y)}" for x, y in items]] *)
Fixpoint plabs_of (items : list (string * value)) : result (list string) :=
  match items with
  | [] => Ok []
  | (x, y) :: rest =>
      s <~ paramval2str x y ;;
      ss <~ plabs_of rest ;;
      Ok ((x ++ ": " ++ s)%string :: ss)
  end.

Definition get_params_str (params : params_t) : result string :=
  let user_params := get_nondefault_params params in
  plabs <~ plabs_of user_params ;;
  Ok (String.concat "/" plabs).

End Formatting.

(** ** convert_to_pandas *)

(** A backtrader line, by [plotrange(start, end)], and a line series, by
    what the tabulation calls on it: [obj.size()], [obj.lines[lineidx]],
    [obj.lines._getlinealias(lineidx)] and [obj.lines.datetime]. *)
Record line_t : Type := mkLine {
  plotrange : option Z -> option Z -> list float
}.

Record lineseries : Type := mkLineSeries {
  size : Z;
  lines_at : Z -> line_t;
  _getlinealias : Z -> string;
  lines_datetime : line_t
}.

Section Pandas.

(** pandas and [bt.num2date] are not part of the module: a frame is any
    type with an empty frame [pd_DataFrame] and a column assignment
    [df[name] = values], which may raise; [num2date] may raise too. *)
Variable DataFrame : Type.
Variable date : Type.

Inductive column : Type :=
| FloatColumn (values : list float)
| DateColumn (values : list date).

Variable pd_DataFrame : DataFrame.
Variable setitem : DataFrame -> string -> column -> result DataFrame.
Variable num2date : float -> result date.

Variable master_clock : option (list float).
Variable obj : lineseries.
Variables start end_ : option Z.
Variable name_prefix : string.

(** The loop [for lineidx in range(obj.size())], over the indices left. *)
Fixpoint add_lines (lines_clk : list float) (idxs : list Z) (df : DataFrame)
    : result DataFrame :=
  match idxs with
  | [] => Ok df
  | lineidx :: rest =>
      let line := lines_at obj lineidx in
      let linealias := _getlinealias obj lineidx in
      if String.eqb linealias "datetime" then add_lines lines_clk rest df
      else
        let data := plotrange line start end_ in
        ndata <~ of_outcome
                   (convert_to_master_clock data lines_clk master_clock false) ;;
        df1 <~ setitem df (name_prefix ++ linealias)%string (FloatColumn ndata) ;;
        add_lines lines_clk rest df1
  end.

(** [[bt.num2date(x) for x in xs]] *)
Fixpoint num2dates (xs : list float) : result (list date) :=
  match xs with
  | [] => Ok []
  | x :: rest => d <~ num2date x ;; ds <~ num2dates rest ;; Ok (d :: ds)
  end.

Definition convert_to_pandas : result DataFrame :=
  let lines_clk := plotrange (lines_datetime obj) start end_ in
  let df := pd_DataFrame in
  df1 <~ add_lines lines_clk (Py.range 0 (size obj)) df ;;
  dates <~ match master_clock with
           | None => Err (TypeError NotIterable)
           | Some mc => num2dates mc
           end ;;
  setitem df1 (name_prefix ++ "datetime")%string (DateColumn dates).

End Pandas.

Arguments FloatColumn {date} values.
Arguments DateColumn {date} values.

(** ** Vocabulary of the further statements *)

(** [l] taken in order from [l'], with items of [l'] left out. *)
Inductive subseq {A : Type} : list A -> list A -> Prop :=
| subseq_nil : subseq [] []
| subseq_skip x l l' : subseq l l' -> subseq l (x :: l')
| subseq_take x l l' : subseq l l' -> subseq (x :: l) (x :: l').

(** A float that is a number: it is equal to itself. *)
Definition is_number (x : float) : Prop := PrimFloat.eqb x x = true.

Definition column_length {date : Type} (c : @column date) : nat :=
  match c with
  | FloatColumn values => List.length values
  | DateColumn values => List.length values
  end.

(** The locals of a run with the fill, over a series of numbers: NaN
    values, then numbers; and once a number is out, the cursor is past the
    clock entries that have no item of the series. *)
Definition filled (off : Z) (st : locals) : Prop :=
  exists k vals,
    new_line st = repeat float_nan k ++ vals
    /\ Forall is_number vals
    /\ (vals <> [] -> off <= next_start_idx st).

(** The column that the tabulation stores for the line [lineidx] of [obj],
    a line that is not the datetime line: its name and its values. *)
Definition data_column {date : Type} (mc : list float) (obj : lineseries)
    (start end_ : option Z) (name_prefix : string)
    (name : string) (c : @column date) : Prop :=
  exists lineidx vals,
    0 <= lineidx < size obj
    /\ String.eqb (_getlinealias obj lineidx) "datetime" = false
    /\ name = (name_prefix ++ _getlinealias obj lineidx)%string
    /\ c = FloatColumn vals
    /\ convert_to_master_clock (plotrange (lines_at obj lineidx) start end_)
         (plotrange (lines_datetime obj) start end_) (Some mc) false
       = Returns vals
    /\ List.length vals = List.length mc.

(** The column of the dates of the master clock. *)
Definition dates_column {date : Type} (num2date : float -> result date)
    (mc : list float) (name_prefix : string)
    (name : string) (c : @column date) : Prop :=
  exists ds,
    name = (name_prefix ++ "datetime")%string
    /\ c = DateColumn ds
    /\ num2dates date num2date mc = Ok ds
    /\ List.length ds = List.length mc.

(** [a] is a timestamp strictly before [b]. *)
Definition strictly_before (a b : float) : Prop :=
  PrimFloat.ltb a b = true /\ PrimFloat.eqb a b = false.

(** A frame that records the column assignments it receives, in order. *)
Definition record_setitem {date : Type} (df : list (string * @column date))
    (name : string) (c : @column date) : result (list (string * @column date)) :=
  Ok (df ++ [(name, c)]).

(** * Properties *)

(** ** Checks on the inputs of the specification *)

Open Scope float_scope.

Example ex_exact :
  convert_to_master_clock [1; 2; 3] [10; 20; 30] (Some [10; 20; 30]) false
  = Returns [1; 2; 3].
Proof. vm_compute. reflexivity. Qed.

Example ex_gap :
  convert_to_master_clock [1; 3] [10; 30] (Some [10; 20; 30]) false
  = Returns [1; float_nan; 3].
Proof. vm_compute. reflexivity. Qed.

Example ex_gap_prev :
  convert_to_master_clock [1; 3] [10; 30] (Some [10; 20; 30]) true
  = Returns [1; 1; 3].
Proof. vm_compute. reflexivity. Qed.

Example ex_offset :
  convert_to_master_clock [100; 200] [5; 10; 20] (Some [5; 10; 20]) false
  = Returns [float_nan; 100; 200].
Proof. vm_compute. reflexivity. Qed.

Example ex_dup :
  convert_to_master_clock [1; 2] [10; 10] (Some [10; 10]) false
  = Returns [1; 2].
Proof. vm_compute. reflexivity. Qed.

Example ex_empty_master :
  convert_to_master_clock [1] [10] (Some []) false = Returns [].
Proof. vm_compute. reflexivity. Qed.

Example ex_nan_clock :
  convert_to_master_clock [1] [nan] (Some [nan]) false = Returns [float_nan].
Proof. vm_compute. reflexivity. Qed.

Close Scope float_scope.

(** ** Python list operations *)

Lemma len_nonneg {A : Type} (l : list A) : 0 <= Py.len l.
Proof. unfold Py.len. lia. Qed.

Lemma len_app {A : Type} (l1 l2 : list A) :
  Py.len (l1 ++ l2) = Py.len l1 + Py.len l2.
Proof. unfold Py.len. rewrite length_app. lia. Qed.

Lemma getitem_inbounds {A : Type} (l : list A) (i : Z) :
  0 <= i < Py.len l ->
  exists x, Py.getitem l i = Returns x /\ nth_error l (Z.to_nat i) = Some x.
Proof.
  intros Hi. unfold Py.getitem.
  destruct (i <? 0) eqn:Hneg; [apply Z.ltb_lt in Hneg; lia|].
  replace ((0 <=? i) && (i <? Py.len l)) with true
    by (symmetry; apply andb_true_iff; split;
        [apply Z.leb_le | apply Z.ltb_lt]; lia).
  destruct (nth_error l (Z.to_nat i)) as [x|] eqn:Hn.
  - exists x. split; reflexivity.
  - apply nth_error_None in Hn. unfold Py.len in Hi. lia.
Qed.

Lemma getitem_Returns_nonneg {A : Type} (l : list A) (i : Z) (x : A) :
  0 <= i -> Py.getitem l i = Returns x ->
  i < Py.len l /\ nth_error l (Z.to_nat i) = Some x.
Proof.
  intros Hi. unfold Py.getitem.
  destruct (i <? 0) eqn:Hneg; [apply Z.ltb_lt in Hneg; lia|].
  destruct ((0 <=? i) && (i <? Py.len l)) eqn:Hb; [|discriminate].
  apply andb_true_iff in Hb. destruct Hb as [_ Hlt]. apply Z.ltb_lt in Hlt.
  destruct (nth_error l (Z.to_nat i)) as [y|]; [|discriminate].
  intros E. inversion E; subst. split; [assumption | reflexivity].
Qed.

Lemma getitem_In {A : Type} (l : list A) (i : Z) (x : A) :
  Py.getitem l i = Returns x -> In x l.
Proof.
  unfold Py.getitem.
  destruct ((0 <=? (if i <? 0 then i + Py.len l else i))
            && ((if i <? 0 then i + Py.len l else i) <? Py.len l));
    [|discriminate].
  destruct (nth_error l (Z.to_nat (if i <? 0 then i + Py.len l else i)))
    as [y|] eqn:Hn; [|discriminate].
  intros E. inversion E; subst. apply nth_error_In in Hn. assumption.
Qed.

Lemma In_getitem {A : Type} (l : list A) (x : A) :
  In x l -> exists k, 0 <= k < Py.len l /\ Py.getitem l k = Returns x.
Proof.
  intros Hin. apply In_nth_error in Hin. destruct Hin as [n Hn].
  assert (Hlt : (n < List.length l)%nat)
    by (apply nth_error_Some; congruence).
  exists (Z.of_nat n).
  destruct (getitem_inbounds l (Z.of_nat n)) as [y [Hy Hny]];
    [unfold Py.len; lia|].
  rewrite Nat2Z.id in Hny. split; [unfold Py.len; lia|]. congruence.
Qed.

Lemma getitem_last {A : Type} (l : list A) (x : A) :
  Py.getitem (l ++ [x]) (-1) = Returns x.
Proof.
  unfold Py.getitem. change (-1 <? 0) with true. cbv iota.
  rewrite len_app. change (Py.len [x]) with 1.
  pose proof (len_nonneg l) as Hl.
  replace ((0 <=? -1 + (Py.len l + 1)) && (-1 + (Py.len l + 1) <? Py.len l + 1))
    with true
    by (symmetry; apply andb_true_iff; split;
        [apply Z.leb_le | apply Z.ltb_lt]; lia).
  replace (Z.to_nat (-1 + (Py.len l + 1))) with (List.length l + 0)%nat
    by (unfold Py.len; lia).
  rewrite nth_error_app2 by lia.
  replace (List.length l + 0 - List.length l)%nat with 0%nat by lia.
  reflexivity.
Qed.

Lemma range_nil (a b : Z) : b <= a -> Py.range a b = [].
Proof.
  intros H. unfold Py.range. replace (Z.to_nat (b - a)) with 0%nat by lia.
  reflexivity.
Qed.

Lemma range_cons (a b : Z) : a < b -> Py.range a b = a :: Py.range (a + 1) b.
Proof.
  intros H. unfold Py.range.
  replace (Z.to_nat (b - a)) with (S (Z.to_nat (b - (a + 1)))) by lia.
  simpl seq. simpl map. f_equal; [lia|].
  rewrite <- seq_shift, map_map. apply map_ext. intros k. lia.
Qed.

Lemma range_In (a b i : Z) : In i (Py.range a b) <-> a <= i < b.
Proof.
  unfold Py.range. rewrite in_map_iff. split.
  - intros [k [Hk Hin]]. cbv beta in Hk. apply in_seq in Hin. lia.
  - intros Hi. exists (Z.to_nat (i - a)). cbv beta. split; [lia|].
    apply in_seq. lia.
Qed.

Lemma range_split (a i b : Z) :
  a <= i < b -> Py.range a b = Py.range a i ++ i :: Py.range (i + 1) b.
Proof.
  intros Hi.
  remember (Z.to_nat (i - a)) as n eqn:Hn.
  revert a Hi Hn. induction n as [|n IH]; intros a Hi Hn.
  - assert (a = i) by lia. subst a.
    rewrite (range_nil i i) by lia. simpl. apply range_cons. lia.
  - rewrite (range_cons a b) by lia. rewrite (range_cons a i) by lia.
    simpl. f_equal. apply IH; lia.
Qed.

(** ** The inner loop *)

Section ScanFacts.

Variables line line_clk : list float.
Variable fill_by_prev : bool.

Local Abbreviation off := (Py.len line_clk - Py.len line).
Local Abbreviation scan' := (scan line line_clk off).
Local Abbreviation step' := (step line line_clk off fill_by_prev).
Local Abbreviation hit_locals := (hit_locals line off).
Local Abbreviation miss_locals := (miss_locals fill_by_prev).
Local Abbreviation inbounds := (inbounds line_clk).

Lemma scan_hit_here sc i v rest st :
  0 <= i -> Py.getitem line_clk i = Returns v -> PrimFloat.eqb sc v = true ->
  scan' sc (i :: rest) st = Returns (hit_locals st i).
Proof.
  intros Hi Hv He. simpl. rewrite Hv. simpl. rewrite He.
  unfold hit_locals, emitted.
  destruct (i - off <? 0) eqn:Hneg; [reflexivity|].
  apply Z.ltb_ge in Hneg.
  apply getitem_Returns_nonneg in Hv; [|assumption]. destruct Hv as [Hlt _].
  destruct (getitem_inbounds line (i - off)) as [x [Hx Hn]]; [lia|].
  rewrite Hx. simpl. unfold Py.append.
  rewrite (nth_error_nth _ _ _ Hn). reflexivity.
Qed.

Lemma scan_skip sc i w rest st :
  Py.getitem line_clk i = Returns w -> passed sc w ->
  scan' sc (i :: rest) st = scan' sc rest st.
Proof.
  intros Hw [He Hl]. simpl. rewrite Hw. simpl.
  rewrite He, Hl. reflexivity.
Qed.

Lemma scan_break sc i w rest st :
  Py.getitem line_clk i = Returns w ->
  PrimFloat.eqb sc w = false -> PrimFloat.ltb sc w = true ->
  scan' sc (i :: rest) st = Returns st.
Proof.
  intros Hw He Hl. simpl. rewrite Hw. simpl.
  rewrite He, Hl. reflexivity.
Qed.

(** The inner loop never raises; it leaves the locals as they were or
    stops at an exact hit. *)
Lemma scan_cases sc idxs st :
  Forall inbounds idxs ->
  scan' sc idxs st = Returns st \/
  exists i v, In i idxs /\ Py.getitem line_clk i = Returns v /\
              PrimFloat.eqb sc v = true /\
              scan' sc idxs st = Returns (hit_locals st i).
Proof.
  induction 1 as [|i rest Hi Hrest IH].
  - left. reflexivity.
  - destruct (getitem_inbounds line_clk i Hi) as [v [Hv _]].
    destruct (PrimFloat.eqb sc v) eqn:He.
    + right. exists i, v. repeat split; try assumption.
      * left. reflexivity.
      * apply scan_hit_here with v; [apply Hi | assumption | assumption].
    + destruct (PrimFloat.ltb sc v) eqn:Hl.
      * left. apply scan_break with v; assumption.
      * rewrite (scan_skip sc i v rest st Hv (conj He Hl)).
        destruct IH as [IH | [j [w [Hin [Hw [Hew Hs]]]]]].
        -- left. assumption.
        -- right. exists j, w. repeat split; try assumption.
           right. assumption.
Qed.

(** The scan stops at [i] when it goes past every index before it. *)
Lemma scan_reach sc pre i v post st :
  (forall j, In j pre ->
             exists w, Py.getitem line_clk j = Returns w /\ passed sc w) ->
  0 <= i -> Py.getitem line_clk i = Returns v -> PrimFloat.eqb sc v = true ->
  scan' sc (pre ++ i :: post) st = Returns (hit_locals st i).
Proof.
  intros Hpre Hi Hv He. induction pre as [|j pre IH].
  - simpl. apply scan_hit_here with v; assumption.
  - rewrite <- app_comm_cons.
    destruct (Hpre j (or_introl eq_refl)) as [w [Hw Hp]].
    rewrite (scan_skip sc j w _ st Hw Hp).
    apply IH. intros k Hk. apply Hpre. right. assumption.
Qed.

(** No entry equal to [sc] among the indices: nothing is found. *)
Lemma scan_miss sc idxs st :
  Forall inbounds idxs ->
  (forall j w, In j idxs -> Py.getitem line_clk j = Returns w ->
               PrimFloat.eqb sc w = false) ->
  scan' sc idxs st = Returns st.
Proof.
  intros Hb Hno. destruct (scan_cases sc idxs st Hb)
    as [H | [i [v [Hin [Hv [He _]]]]]]; [assumption|].
  rewrite (Hno i v Hin Hv) in He. discriminate.
Qed.

Lemma range_inbounds a :
  0 <= a -> Forall inbounds (Py.range a (Py.len line_clk)).
Proof.
  intros Ha. apply Forall_forall. intros i Hi. apply range_In in Hi.
  unfold inbounds. lia.
Qed.

(** ** The body of the outer loop *)

Lemma fill_value_computed (nl : list float) :
  (if (0 <? Py.len nl) && fill_by_prev then Py.getitem nl (-1)
   else Returns float_nan) = Returns (fill_value fill_by_prev nl).
Proof.
  unfold fill_value.
  destruct ((0 <? Py.len nl) && fill_by_prev) eqn:Hc; [|reflexivity].
  apply andb_true_iff in Hc. destruct Hc as [Hlen _].
  apply Z.ltb_lt in Hlen.
  destruct (exists_last (l := nl)) as [l' [x Hx]].
  - intros E. subst nl. unfold Py.len in Hlen. simpl in Hlen. lia.
  - subst nl. rewrite getitem_last, last_last. reflexivity.
Qed.

Lemma step_of_scan_miss sc st :
  scan' sc (Py.range (next_start_idx st) (Py.len line_clk))
        (set_found st false) = Returns (set_found st false) ->
  step' sc st = Returns (miss_locals st).
Proof.
  intros Hs. unfold step. rewrite Hs. simpl.
  rewrite fill_value_computed. reflexivity.
Qed.

Lemma step_of_scan_hit sc st i :
  scan' sc (Py.range (next_start_idx st) (Py.len line_clk))
        (set_found st false) = Returns (hit_locals (set_found st false) i) ->
  step' sc st = Returns (hit_locals st i).
Proof.
  intros Hs. unfold step. rewrite Hs. reflexivity.
Qed.

(** One master timestamp: the body never raises, and it takes the
    not-found branch or the exact-hit branch at an index at or after the
    cursor. *)
Lemma step_cases sc st :
  0 <= next_start_idx st ->
  step' sc st = Returns (miss_locals st) \/
  exists i v, next_start_idx st <= i < Py.len line_clk /\
              Py.getitem line_clk i = Returns v /\
              PrimFloat.eqb sc v = true /\
              step' sc st = Returns (hit_locals st i).
Proof.
  intros Hns.
  destruct (scan_cases sc (Py.range (next_start_idx st) (Py.len line_clk))
              (set_found st false) (range_inbounds _ Hns))
    as [H | [i [v [Hin [Hv [He Hs]]]]]].
  - left. apply step_of_scan_miss. assumption.
  - right. exists i, v. apply range_In in Hin.
    repeat split; try assumption; try lia.
    apply step_of_scan_hit. assumption.
Qed.

Lemma step_reach sc st i v :
  0 <= next_start_idx st -> next_start_idx st <= i ->
  Py.getitem line_clk i = Returns v -> PrimFloat.eqb sc v = true ->
  (forall j, next_start_idx st <= j < i ->
             exists w, Py.getitem line_clk j = Returns w /\ passed sc w) ->
  step' sc st = Returns (hit_locals st i).
Proof.
  intros Hns Hi Hv He Hpre. apply step_of_scan_hit.
  assert (Hlt : i < Py.len line_clk)
    by (apply getitem_Returns_nonneg in Hv; [tauto | lia]).
  rewrite (range_split (next_start_idx st) i) by lia.
  apply scan_reach with v; try assumption; [|lia].
  intros j Hj. apply range_In in Hj. apply Hpre. assumption.
Qed.

Lemma step_miss sc st :
  0 <= next_start_idx st ->
  (forall j w, Py.getitem line_clk j = Returns w ->
               PrimFloat.eqb sc w = false) ->
  step' sc st = Returns (miss_locals st).
Proof.
  intros Hns Hno. apply step_of_scan_miss. apply scan_miss.
  - apply range_inbounds. assumption.
  - intros j w _ Hw. apply (Hno j w Hw).
Qed.

End ScanFacts.

(** ** The outer loop *)

Section RunFacts.

Variables line line_clk : list float.
Variable fill_by_prev : bool.

Local Abbreviation off := (Py.len line_clk - Py.len line).
Local Abbreviation step' := (step line line_clk off fill_by_prev).
Local Abbreviation for_master' := (for_master line line_clk off fill_by_prev).

Lemma emitted_from_line i :
  0 <= i < Py.len line_clk -> from_line line (emitted line off i).
Proof.
  intros Hi. unfold emitted, from_line.
  destruct (i - off <? 0) eqn:Hneg; [left; reflexivity|].
  apply Z.ltb_ge in Hneg. right. exists (i - off).
  destruct (getitem_inbounds line (i - off)) as [x [Hx Hn]]; [lia|].
  split; [lia|]. rewrite (nth_error_nth _ _ _ Hn). assumption.
Qed.

Lemma fill_value_from_line nl :
  Forall (from_line line) nl -> from_line line (fill_value fill_by_prev nl).
Proof.
  intros Hall. unfold fill_value.
  destruct ((0 <? Py.len nl) && fill_by_prev); [|left; reflexivity].
  destruct nl as [|y nl'] using rev_ind; [left; reflexivity|].
  rewrite last_last. apply Forall_app in Hall. destruct Hall as [_ Hy].
  inversion Hy; assumption.
Qed.

(** One turn of the outer loop appends exactly one value and never moves
    the cursor back. *)
Lemma step_total sc st :
  0 <= next_start_idx st ->
  exists st' x,
    step' sc st = Returns st' /\
    new_line st' = new_line st ++ [x] /\
    next_start_idx st <= next_start_idx st' /\
    (found st' = true -> next_start_idx st < next_start_idx st') /\
    (Forall (from_line line) (new_line st) -> from_line line x).
Proof.
  intros Hns.
  destruct (step_cases line line_clk fill_by_prev sc st Hns)
    as [H | [i [v [Hi [Hv [He H]]]]]].
  - exists (miss_locals fill_by_prev st), (fill_value fill_by_prev (new_line st)).
    repeat split; try assumption; simpl; try lia; try discriminate.
    apply fill_value_from_line.
  - exists (hit_locals line off st i), (emitted line off i).
    repeat split; try assumption; simpl; try lia.
    intros _. apply emitted_from_line. lia.
Qed.

Lemma for_master_app a b st :
  for_master' (a ++ b) st = (st1 <- for_master' a st ;; for_master' b st1).
Proof.
  revert st. induction a as [|sc a IH]; intros st; simpl; [reflexivity|].
  destruct (step' sc st) as [st1|e]; simpl; [apply IH | reflexivity].
Qed.

(** The outer loop never raises: it appends one value per master timestamp,
    in order, and the cursor only moves forward. *)
Lemma for_master_total mc st :
  0 <= next_start_idx st ->
  exists st' ext,
    for_master' mc st = Returns st' /\
    new_line st' = new_line st ++ ext /\
    List.length ext = List.length mc /\
    next_start_idx st <= next_start_idx st' /\
    (Forall (from_line line) (new_line st) ->
     Forall (from_line line) (new_line st')).
Proof.
  revert st. induction mc as [|sc mc IH]; intros st Hns.
  - exists st, []. simpl. rewrite app_nil_r. repeat split; try lia. tauto.
  - destruct (step_total sc st Hns) as [st1 [x [Hs [Hnl [Hle [_ Hfrom]]]]]].
    destruct (IH st1) as [st' [ext [Hr [Hnl' [Hlen [Hle' Hfrom']]]]]]; [lia|].
    exists st', (x :: ext). simpl. rewrite Hs. simpl.
    repeat split; try assumption.
    + rewrite Hnl', Hnl, <- app_assoc. reflexivity.
    + simpl. rewrite Hlen. reflexivity.
    + lia.
    + intros Hall. apply Hfrom'. rewrite Hnl. apply Forall_app. split.
      * assumption.
      * constructor; [apply Hfrom; assumption | constructor].
Qed.

Lemma locals_after_total mc :
  exists st,
    locals_after line line_clk fill_by_prev mc = Returns st /\
    List.length (new_line st) = List.length mc /\
    0 <= next_start_idx st /\
    Forall (from_line line) (new_line st).
Proof.
  destruct (for_master_total mc init_locals) as [st [ext [Hr [Hnl [Hlen [Hle Hf]]]]]];
    [simpl; lia|].
  exists st. unfold locals_after. simpl in Hnl, Hle.
  split; [assumption|]. split; [rewrite Hnl; assumption|].
  split; [assumption|]. apply Hf. constructor.
Qed.

Lemma convert_of_locals mc st :
  locals_after line line_clk fill_by_prev mc = Returns st ->
  convert_to_master_clock line line_clk (Some mc) fill_by_prev
  = Returns (new_line st).
Proof.
  unfold locals_after, convert_to_master_clock. intros H. rewrite H. reflexivity.
Qed.

(** The output for [a ++ m :: b], cut at the turn of [m]: the locals [st]
    before the turn, the locals [st1] after it, the value [x] the turn
    appends, which is the item of the output at position [length a]. *)
Lemma turn_of a m b :
  exists st st1 x out,
    locals_after line line_clk fill_by_prev a = Returns st /\
    0 <= next_start_idx st /\
    List.length (new_line st) = List.length a /\
    step' m st = Returns st1 /\
    new_line st1 = new_line st ++ [x] /\
    locals_after line line_clk fill_by_prev (a ++ [m]) = Returns st1 /\
    convert_to_master_clock line line_clk (Some (a ++ m :: b)) fill_by_prev
    = Returns out /\
    firstn (List.length a) out = new_line st /\
    nth_error out (List.length a) = Some x.
Proof.
  destruct (locals_after_total a) as [st [Ha [Hlen [Hns _]]]].
  destruct (step_total m st Hns) as [st1 [x [Hs [Hnl [Hle _]]]]].
  destruct (for_master_total b st1) as [st2 [ext [Hb [Hnl2 _]]]]; [lia|].
  exists st, st1, x, (new_line st2).
  assert (Ham : locals_after line line_clk fill_by_prev (a ++ [m]) = Returns st1).
  { unfold locals_after in *. rewrite for_master_app, Ha. simpl.
    rewrite Hs. reflexivity. }
  repeat split; try assumption.
  - apply convert_of_locals. unfold locals_after in *.
    rewrite for_master_app, Ha. simpl. rewrite Hs. simpl. assumption.
  - rewrite Hnl2, Hnl, <- app_assoc, <- Hlen.
    rewrite firstn_app, firstn_all, Nat.sub_diag. simpl.
    rewrite app_nil_r. reflexivity.
  - rewrite Hnl2, Hnl, <- app_assoc, <- Hlen.
    rewrite nth_error_app2 by lia. rewrite Nat.sub_diag. reflexivity.
Qed.

End RunFacts.

(** ** The alignment claims *)

Open Scope float_scope.

(** C1 (as stated, refuted): with an empty master clock the routine does
    not hand back the series: it returns the empty sequence. *)
Lemma C1_empty_master_not_passthrough :
  convert_to_master_clock [1] [10] (Some []) false = Returns []
  /\ convert_to_master_clock [1] [10] (Some []) false <> Returns [1].
Proof. split; [reflexivity | discriminate]. Qed.

(** C1 (amended): when the master clock is None, the routine returns the
    input series unchanged, whatever the series, its clock and the fill
    flag; when the master clock is an empty sequence it returns an empty
    sequence. *)
Theorem C1_passthrough_on_None :
  forall (line line_clk : list float) (fill_by_prev : bool),
    convert_to_master_clock line line_clk None fill_by_prev = Returns line
    /\ convert_to_master_clock line line_clk (Some []) fill_by_prev
       = Returns [].
Proof. intros. split; reflexivity. Qed.

Close Scope float_scope.

(** C2: for a master clock that is not None, of length M, the routine
    returns a sequence of length exactly M, with one value per master
    timestamp in the order of the master clock: the output for a prefix of
    the master clock is the prefix of the output, and the rest of the master
    clock adds one value per timestamp after it. *)
Theorem C2_length_and_order :
  forall (line line_clk mc : list float) (fill_by_prev : bool),
  exists out,
    convert_to_master_clock line line_clk (Some mc) fill_by_prev = Returns out
    /\ List.length out = List.length mc
    /\ forall a b, mc = a ++ b ->
         exists oa ob,
           convert_to_master_clock line line_clk (Some a) fill_by_prev
           = Returns oa
           /\ out = oa ++ ob
           /\ List.length oa = List.length a
           /\ List.length ob = List.length b.
Proof.
  intros line line_clk mc fill_by_prev.
  destruct (locals_after_total line line_clk fill_by_prev mc)
    as [st [Hst [Hlen _]]].
  exists (new_line st). split; [apply convert_of_locals; assumption|].
  split; [assumption|].
  intros a b Hmc.
  destruct (locals_after_total line line_clk fill_by_prev a)
    as [sa [Hsa [Hlena [Hns _]]]].
  destruct (for_master_total line line_clk fill_by_prev b sa Hns)
    as [sb [ext [Hsb [Hnl [Hlenb _]]]]].
  exists (new_line sa), ext.
  split; [apply convert_of_locals; assumption|].
  assert (Hsame : Returns st = Returns sb).
  { rewrite <- Hst, Hmc. unfold locals_after in *.
    rewrite for_master_app, Hsa. simpl. assumption. }
  inversion Hsame; subst st. repeat split; assumption.
Qed.

Lemma nth_error_last {A : Type} (l : list A) (d : A) :
  l <> [] -> nth_error l (List.length l - 1) = Some (last l d).
Proof.
  intros Hne. destruct (exists_last Hne) as [l' [x Hx]]. subst l.
  rewrite last_last, length_app. simpl.
  rewrite nth_error_app2 by lia.
  replace (List.length l' + 1 - 1 - List.length l')%nat with 0%nat by lia.
  reflexivity.
Qed.

Lemma nth_error_firstn_lt {A : Type} (l : list A) (n k : nat) :
  (k < n)%nat -> nth_error (firstn n l) k = nth_error l k.
Proof.
  revert l k. induction n as [|n IH]; intros l k Hk; [lia|].
  destruct l as [|x l]; [destruct k; reflexivity|].
  destruct k as [|k]; [reflexivity|]. simpl. apply IH. lia.
Qed.

(** What the output holds at the turn of a master timestamp that the scan
    does not find: NaN, or, when [fill_by_prev] is set and a value was
    emitted before, that previous value. *)
Lemma not_found_fill line line_clk fill_by_prev a m b st :
  locals_after line line_clk fill_by_prev a = Returns st ->
  step line line_clk (Py.len line_clk - Py.len line) fill_by_prev m st
  = Returns (miss_locals fill_by_prev st) ->
  exists out,
    convert_to_master_clock line line_clk (Some (a ++ m :: b)) fill_by_prev
    = Returns out
    /\ (fill_by_prev = true /\ a <> [] ->
        exists prev, nth_error out (List.length a - 1) = Some prev
                     /\ nth_error out (List.length a) = Some prev)
    /\ (fill_by_prev = false \/ a = [] ->
        nth_error out (List.length a) = Some float_nan).
Proof.
  intros Hst Hmiss.
  destruct (turn_of line line_clk fill_by_prev a m b)
    as [st0 [st1 [x [out [Ha [Hns [Hlen [Hs [Hnl [_ [Hout [Hfirst Hnth]]]]]]]]]]]].
  rewrite Hst in Ha. inversion Ha; subst st0. clear Ha.
  rewrite Hmiss in Hs. inversion Hs; subst st1. clear Hs.
  simpl in Hnl. apply app_inv_head in Hnl. inversion Hnl; subst x. clear Hnl.
  exists out. split; [assumption|]. unfold fill_value in Hnth. split.
  - intros [Hfill Hne]. subst fill_by_prev.
    assert (Hpos : (0 < List.length a)%nat)
      by (destruct a; [congruence | simpl; lia]).
    replace (0 <? Py.len (new_line st)) with true in Hnth
      by (symmetry; apply Z.ltb_lt; unfold Py.len; lia).
    simpl in Hnth. exists (last (new_line st) float_nan). split; [|assumption].
    rewrite <- (nth_error_firstn_lt out (List.length a)) by lia.
    rewrite Hfirst, <- Hlen. apply nth_error_last.
    intros E. rewrite E in Hlen. simpl in Hlen. lia.
  - intros [Hfill | Hnil].
    + subst fill_by_prev. rewrite andb_false_r in Hnth. assumption.
    + subst a. simpl in Hlen.
      replace (0 <? Py.len (new_line st)) with false in Hnth
        by (symmetry; apply Z.ltb_ge; unfold Py.len; lia).
      assumption.
Qed.

Open Scope float_scope.

(** C3: at a master timestamp that no entry of the series clock equals, the
    routine emits NaN, unless [fill_by_prev] is true and the output already
    holds a value, in which case it emits the previously emitted value
    again.  In particular the master clock 10, 20, 30 with the series 1, 3
    on the clock 10, 30 gives 1, NaN, 3 without the fill and 1, 1, 3 with
    it. *)
Theorem C3_no_match_emits_fill :
  (forall (line line_clk : list float) (fill_by_prev : bool)
          (a : list float) (m : float) (b : list float),
     (forall j w, Py.getitem line_clk j = Returns w ->
                  PrimFloat.eqb m w = false) ->
     exists out,
       convert_to_master_clock line line_clk (Some (a ++ m :: b)) fill_by_prev
       = Returns out
       /\ (fill_by_prev = true /\ a <> [] ->
           exists prev, nth_error out (List.length a - 1) = Some prev
                        /\ nth_error out (List.length a) = Some prev)
       /\ (fill_by_prev = false \/ a = [] ->
           nth_error out (List.length a) = Some float_nan))
  /\ convert_to_master_clock [1; 3] [10; 30] (Some [10; 20; 30]) false
     = Returns [1; float_nan; 3]
  /\ convert_to_master_clock [1; 3] [10; 30] (Some [10; 20; 30]) true
     = Returns [1; 1; 3].
Proof.
  split; [|split; reflexivity].
  intros line line_clk fill_by_prev a m b Hno.
  destruct (locals_after_total line line_clk fill_by_prev a)
    as [st [Hst [_ [Hns _]]]].
  apply not_found_fill with st; [assumption|].
  apply step_miss; assumption.
Qed.

(** C3 at the master clock 10, 20, 30, at the timestamp 20, with the
    fill. *)
Lemma C3_no_match_emits_fill_witness :
  exists out,
    convert_to_master_clock [1; 3] [10; 30] (Some ([10] ++ 20 :: [30])) true
    = Returns out
    /\ (true = true /\ [10] <> [] ->
        exists prev, nth_error out (List.length [10] - 1) = Some prev
                     /\ nth_error out (List.length [10]) = Some prev)
    /\ (true = false \/ [10] = [] ->
        nth_error out (List.length [10]) = Some float_nan).
Proof.
  apply (proj1 C3_no_match_emits_fill [1; 3] [10; 30] true [10] 20 [30]).
  intros j w Hw. apply getitem_In in Hw.
  destruct Hw as [<- | [<- | []]]; reflexivity.
Defined.

Close Scope float_scope.

(** What the output holds at the turn of a master timestamp whose scan
    stops on an exact hit at index [i] of the series clock. *)
Lemma hit_emits line line_clk fill_by_prev a m b st i v :
  locals_after line line_clk fill_by_prev a = Returns st ->
  next_start_idx st <= i ->
  Py.getitem line_clk i = Returns v -> PrimFloat.eqb m v = true ->
  (forall j, next_start_idx st <= j < i ->
             exists w, Py.getitem line_clk j = Returns w /\ passed m w) ->
  exists out,
    convert_to_master_clock line line_clk (Some (a ++ m :: b)) fill_by_prev
    = Returns out
    /\ nth_error out (List.length a)
       = Some (emitted line (Py.len line_clk - Py.len line) i)
    /\ 0 <= i < Py.len line_clk.
Proof.
  intros Hst Hi Hv He Hpre.
  destruct (turn_of line line_clk fill_by_prev a m b)
    as [st0 [st1 [x [out [Ha [Hns [Hlen [Hs [Hnl [_ [Hout [_ Hnth]]]]]]]]]]]].
  rewrite Hst in Ha. inversion Ha; subst st0. clear Ha.
  rewrite (step_reach line line_clk fill_by_prev m st i v Hns Hi Hv He Hpre)
    in Hs.
  inversion Hs; subst st1. clear Hs.
  simpl in Hnl. apply app_inv_head in Hnl. inversion Hnl; subst x.
  exists out. split; [assumption|]. split; [assumption|].
  apply getitem_Returns_nonneg in Hv; [lia | lia].
Qed.

Open Scope float_scope.

(** C4: when the scan for a master timestamp stops on an exact match at
    index i of the series clock, the routine emits the item of the series at
    the corrected index i - offset, where offset is the length of the series
    clock minus the length of the series, and that index is within the
    series; except that it emits NaN when i - offset is negative.  In
    particular, with the series clock 5, 10, 20 and the series 100, 200, the
    master clock 10, 20 gives 100, 200, and a master clock that also holds 5
    gives NaN at that position. *)
Theorem C4_exact_hit_emits_corrected_index :
  (forall (line line_clk : list float) (fill_by_prev : bool)
          (a : list float) (m : float) (b : list float)
          (st : locals) (i : Z) (v : float),
     locals_after line line_clk fill_by_prev a = Returns st ->
     next_start_idx st <= i ->
     Py.getitem line_clk i = Returns v -> PrimFloat.eqb m v = true ->
     (forall j, (next_start_idx st <= j < i)%Z ->
                exists w, Py.getitem line_clk j = Returns w /\ passed m w) ->
     exists out,
       convert_to_master_clock line line_clk (Some (a ++ m :: b)) fill_by_prev
       = Returns out
       /\ ((i - (Py.len line_clk - Py.len line) < 0)%Z ->
           nth_error out (List.length a) = Some float_nan)
       /\ ((0 <= i - (Py.len line_clk - Py.len line))%Z ->
           exists x,
             Py.getitem line (i - (Py.len line_clk - Py.len line))%Z
             = Returns x
             /\ nth_error out (List.length a) = Some x))
  /\ convert_to_master_clock [100; 200] [5; 10; 20] (Some [10; 20]) false
     = Returns [100; 200]
  /\ convert_to_master_clock [100; 200] [5; 10; 20] (Some [5; 10; 20]) false
     = Returns [float_nan; 100; 200].
Proof.
  split; [|split; reflexivity].
  intros line line_clk fill_by_prev a m b st i v Hst Hi Hv He Hpre.
  destruct (hit_emits line line_clk fill_by_prev a m b st i v Hst Hi Hv He Hpre)
    as [out [Hout [Hnth Hb]]].
  exists out. split; [assumption|]. unfold emitted in Hnth. split.
  - intros Hneg. apply Z.ltb_lt in Hneg. rewrite Hneg in Hnth. assumption.
  - intros Hpos.
    destruct (getitem_inbounds line (i - (Py.len line_clk - Py.len line))%Z)
      as [x [Hx Hn]]; [lia|].
    exists x. split; [assumption|].
    apply Z.ltb_ge in Hpos. rewrite Hpos in Hnth.
    rewrite (nth_error_nth _ _ _ Hn) in Hnth. assumption.
Qed.

(** C4 at the master timestamp 10, found at index 1 of the series clock
    5, 10, 20 after the scan has gone past the entry 5. *)
Lemma C4_exact_hit_emits_corrected_index_witness :
  exists out,
    convert_to_master_clock [100; 200] [5; 10; 20] (Some ([] ++ 10 :: [20]))
      false = Returns out
    /\ ((1 - (Py.len [5; 10; 20] - Py.len [100; 200]) < 0)%Z ->
        nth_error out (List.length (@nil float)) = Some float_nan)
    /\ ((0 <= 1 - (Py.len [5; 10; 20] - Py.len [100; 200]))%Z ->
        exists x,
          Py.getitem [100; 200]
            (1 - (Py.len [5; 10; 20] - Py.len [100; 200]))%Z = Returns x
          /\ nth_error out (List.length (@nil float)) = Some x).
Proof.
  apply (proj1 C4_exact_hit_emits_corrected_index
           [100; 200] [5; 10; 20] false [] 10 [20] init_locals 1%Z 10).
  - reflexivity.
  - simpl. lia.
  - reflexivity.
  - reflexivity.
  - intros j Hj. simpl in Hj. assert (j = 0%Z) by lia. subst j.
    exists 5. split; [reflexivity | split; reflexivity].
Defined.

(** C8: with [fill_by_prev] true, when the scan for a master timestamp
    stops on an exact match whose corrected index is negative, the routine
    emits NaN at that position, whatever the output already holds: the
    value is the one of the exact-hit branch, not the previous-value
    fill. *)
Theorem C8_negative_index_hit_emits_nan :
  forall (line line_clk : list float)
         (a : list float) (m : float) (b : list float)
         (st : locals) (i : Z) (v : float),
    locals_after line line_clk true a = Returns st ->
    next_start_idx st <= i ->
    Py.getitem line_clk i = Returns v -> PrimFloat.eqb m v = true ->
    (forall j, (next_start_idx st <= j < i)%Z ->
               exists w, Py.getitem line_clk j = Returns w /\ passed m w) ->
    (i - (Py.len line_clk - Py.len line) < 0)%Z ->
    exists out,
      convert_to_master_clock line line_clk (Some (a ++ m :: b)) true
      = Returns out
      /\ nth_error out (List.length a) = Some float_nan.
Proof.
  intros line line_clk a m b st i v Hst Hi Hv He Hpre Hneg.
  destruct (hit_emits line line_clk true a m b st i v Hst Hi Hv He Hpre)
    as [out [Hout [Hnth _]]].
  exists out. split; [assumption|].
  unfold emitted in Hnth. apply Z.ltb_lt in Hneg. rewrite Hneg in Hnth.
  assumption.
Qed.

(** C8 on the series clock 5, 10, 20 with the series 100, 200: the master
    timestamp 5 comes after the timestamp 1, so the output already holds a
    value when the hit at index 0 is found. *)
Lemma C8_negative_index_hit_emits_nan_witness :
  exists out,
    convert_to_master_clock [100; 200] [5; 10; 20] (Some ([1] ++ 5 :: [10]))
      true = Returns out
    /\ nth_error out (List.length [1]) = Some float_nan.
Proof.
  apply (C8_negative_index_hit_emits_nan
           [100; 200] [5; 10; 20] [1] 5 [10]
           {| new_line := [float_nan]; next_start_idx := 0; found := false |}
           0%Z 5).
  - reflexivity.
  - simpl. lia.
  - reflexivity.
  - reflexivity.
  - intros j Hj. simpl in Hj. lia.
  - reflexivity.
Defined.

Close Scope float_scope.

(** ** The cursor *)

Lemma cursor_monotone line line_clk fill_by_prev a b :
  exists st st',
    locals_after line line_clk fill_by_prev a = Returns st
    /\ locals_after line line_clk fill_by_prev (a ++ b) = Returns st'
    /\ 0 <= next_start_idx st <= next_start_idx st'.
Proof.
  destruct (locals_after_total line line_clk fill_by_prev a)
    as [st [Hst [_ [Hns _]]]].
  destruct (for_master_total line line_clk fill_by_prev b st Hns)
    as [st' [ext [Hb [_ [_ [Hle _]]]]]].
  exists st, st'. split; [assumption|]. split; [|lia].
  unfold locals_after in *. rewrite for_master_app, Hst. simpl. assumption.
Qed.

(** When the last turn has set [found], the cursor stands just after the
    entry it matched, and that entry was at or after the cursor before the
    turn. *)
Lemma found_means_hit line line_clk fill_by_prev a m st1 :
  locals_after line line_clk fill_by_prev (a ++ [m]) = Returns st1 ->
  found st1 = true ->
  exists st v,
    locals_after line line_clk fill_by_prev a = Returns st
    /\ 0 <= next_start_idx st <= next_start_idx st1 - 1
    /\ Py.getitem line_clk (next_start_idx st1 - 1) = Returns v
    /\ PrimFloat.eqb m v = true.
Proof.
  intros H1 Hf.
  destruct (locals_after_total line line_clk fill_by_prev a)
    as [st [Hst [_ [Hns _]]]].
  exists st. unfold locals_after in *. rewrite for_master_app, Hst in H1.
  simpl in H1.
  destruct (step_cases line line_clk fill_by_prev m st Hns)
    as [Hm | [i [v [Hi [Hv [He Hh]]]]]].
  - rewrite Hm in H1. simpl in H1. inversion H1; subst st1.
    simpl in Hf. discriminate.
  - rewrite Hh in H1. simpl in H1. inversion H1; subst st1. simpl.
    replace (i + 1 - 1) with i by lia.
    exists v. repeat split; try assumption; lia.
Qed.

Open Scope float_scope.

(** C5: the cursor [next_start_idx] never moves backward from one master
    timestamp to the next, and a match moves it just past the matched entry
    of the series clock; so two matches, the second at a later master
    timestamp, are at strictly increasing indices of the series clock: an
    entry that was consumed is not matched again.  In particular the master
    clock 10, 10 with the series 1, 2 on the clock 10, 10 gives 1, 2. *)
Theorem C5_cursor_monotone_no_rematch :
  (forall (line line_clk : list float) (fill_by_prev : bool)
          (a b : list float),
     exists st st',
       locals_after line line_clk fill_by_prev a = Returns st
       /\ locals_after line line_clk fill_by_prev (a ++ b) = Returns st'
       /\ (0 <= next_start_idx st <= next_start_idx st')%Z)
  /\ (forall (line line_clk : list float) (fill_by_prev : bool)
             (a : list float) (m : float) (b : list float) (m' : float)
             (st1 st2 : locals),
        locals_after line line_clk fill_by_prev (a ++ [m]) = Returns st1 ->
        found st1 = true ->
        locals_after line line_clk fill_by_prev ((a ++ [m]) ++ b ++ [m'])
        = Returns st2 ->
        found st2 = true ->
        (next_start_idx st1 - 1 < next_start_idx st2 - 1)%Z
        /\ (exists v, Py.getitem line_clk (next_start_idx st1 - 1)%Z
                      = Returns v /\ PrimFloat.eqb m v = true)
        /\ (exists v', Py.getitem line_clk (next_start_idx st2 - 1)%Z
                       = Returns v' /\ PrimFloat.eqb m' v' = true))
  /\ convert_to_master_clock [1; 2] [10; 10] (Some [10; 10]) false
     = Returns [1; 2].
Proof.
  split; [|split; [|reflexivity]].
  - intros. apply cursor_monotone.
  - intros line line_clk fill_by_prev a m b m' st1 st2 H1 Hf1 H2 Hf2.
    destruct (found_means_hit _ _ _ _ _ _ H1 Hf1) as [st [v [_ [_ [Hv He]]]]].
    rewrite app_assoc in H2.
    destruct (found_means_hit _ _ _ _ _ _ H2 Hf2)
      as [sp [v' [Hsp [Hle' [Hv' He']]]]].
    destruct (cursor_monotone line line_clk fill_by_prev (a ++ [m]) b)
      as [s1 [sp' [Hs1 [Hsp' Hmono]]]].
    rewrite H1 in Hs1. inversion Hs1; subst s1.
    rewrite Hsp in Hsp'. inversion Hsp'; subst sp'.
    split; [lia|]. split; [exists v | exists v']; split; assumption.
Qed.

(** C5 on the master clock 10, 10 against the series clock 10, 10: the
    first 10 matches index 0, the second matches index 1. *)
Lemma C5_cursor_monotone_no_rematch_witness :
  (1 - 1 < 2 - 1)%Z
  /\ (exists v, Py.getitem [10; 10] (1 - 1)%Z = Returns v
                /\ PrimFloat.eqb 10 v = true)
  /\ (exists v', Py.getitem [10; 10] (2 - 1)%Z = Returns v'
                 /\ PrimFloat.eqb 10 v' = true).
Proof.
  apply (proj1 (proj2 C5_cursor_monotone_no_rematch)
           [1; 2] [10; 10] false [] 10 [] 10
           {| new_line := [1]; next_start_idx := 1; found := true |}
           {| new_line := [1; 2]; next_start_idx := 2; found := true |});
    reflexivity.
Defined.

Close Scope float_scope.

(** ** A series on its own clock *)

Lemma getitem_app_mid {A : Type} (pre suf : list A) (x : A) :
  Py.getitem (pre ++ x :: suf) (Py.len pre) = Returns x.
Proof.
  destruct (getitem_inbounds (pre ++ x :: suf) (Py.len pre)) as [y [Hy Hn]].
  - rewrite len_app. unfold Py.len. simpl. lia.
  - unfold Py.len in Hn. rewrite Nat2Z.id in Hn.
    rewrite nth_error_app2 in Hn by lia. rewrite Nat.sub_diag in Hn.
    simpl in Hn. inversion Hn; subst. assumption.
Qed.

Lemma own_clock_run fill_by_prev (suf : list float) :
  forall (pre spre ssuf : list float) (st : locals),
    List.length pre = List.length spre ->
    List.length suf = List.length ssuf ->
    Forall (fun t => PrimFloat.eqb t t = true) suf ->
    next_start_idx st = Py.len pre ->
    exists st',
      for_master (spre ++ ssuf) (pre ++ suf)
        (Py.len (pre ++ suf) - Py.len (spre ++ ssuf)) fill_by_prev suf st
      = Returns st'
      /\ new_line st' = new_line st ++ ssuf.
Proof.
  induction suf as [|t suf IH]; intros pre spre ssuf st Hpre Hsuf Hrefl Hns.
  - destruct ssuf; [|discriminate]. exists st. simpl.
    rewrite app_nil_r. split; reflexivity.
  - destruct ssuf as [|x ssuf]; [discriminate|].
    inversion Hrefl as [|? ? Ht Hrest]; subst.
    simpl in Hsuf. injection Hsuf as Hsuf.
    assert (Hoff : Py.len (pre ++ t :: suf) - Py.len (spre ++ x :: ssuf) = 0).
    { rewrite !len_app. unfold Py.len. simpl. lia. }
    simpl for_master.
    rewrite (step_reach (spre ++ x :: ssuf) (pre ++ t :: suf) fill_by_prev
               t st (Py.len pre) t).
    + simpl bind.
      replace (pre ++ t :: suf) with ((pre ++ [t]) ++ suf)
        by (rewrite <- app_assoc; reflexivity).
      replace (spre ++ x :: ssuf) with ((spre ++ [x]) ++ ssuf)
        by (rewrite <- app_assoc; reflexivity).
      destruct (IH (pre ++ [t]) (spre ++ [x]) ssuf
                  (hit_locals ((spre ++ [x]) ++ ssuf)
                     (Py.len ((pre ++ [t]) ++ suf)
                      - Py.len ((spre ++ [x]) ++ ssuf)) st (Py.len pre)))
        as [st' [Hrun Hnl]].
      * rewrite !length_app. simpl. lia.
      * assumption.
      * assumption.
      * simpl. rewrite len_app. reflexivity.
      * exists st'. split; [assumption|]. rewrite Hnl. simpl.
        rewrite <- app_assoc. f_equal. simpl. f_equal.
        unfold emitted.
        replace (Py.len ((pre ++ [t]) ++ suf) - Py.len ((spre ++ [x]) ++ ssuf))
          with 0 by (rewrite !len_app; unfold Py.len; simpl; lia).
        pose proof (len_nonneg pre) as Hp.
        replace (Py.len pre - 0 <? 0) with false
          by (symmetry; apply Z.ltb_ge; lia).
        replace (Z.to_nat (Py.len pre - 0)) with (List.length spre)
          by (unfold Py.len; lia).
        rewrite <- app_assoc. simpl.
        rewrite app_nth2 by lia. rewrite Nat.sub_diag. reflexivity.
    + pose proof (len_nonneg pre). lia.
    + lia.
    + apply getitem_app_mid.
    + assumption.
    + intros j Hj. lia.
Qed.

Open Scope float_scope.

(** C6 (as stated, refuted): a clock entry that is NaN is equal to nothing,
    itself included, so the series is not found on its own clock there. *)
Lemma C6_nan_clock_not_identity :
  convert_to_master_clock [1] [nan] (Some [nan]) false = Returns [float_nan]
  /\ convert_to_master_clock [1] [nan] (Some [nan]) false <> Returns [1].
Proof. split; [reflexivity | discriminate]. Qed.

(** C6 (amended): for every series s and clock c of the same length, no
    entry of c being NaN (every entry is equal to itself), aligning s onto
    its own clock returns s, with or without the fill; in particular the
    series 1, 2, 3 on the clock 10, 20, 30 aligned onto 10, 20, 30 gives
    1, 2, 3. *)
Theorem C6_own_clock_identity :
  (forall (s c : list float) (fill_by_prev : bool),
     List.length s = List.length c ->
     Forall (fun t => PrimFloat.eqb t t = true) c ->
     convert_to_master_clock s c (Some c) fill_by_prev = Returns s)
  /\ convert_to_master_clock [1; 2; 3] [10; 20; 30] (Some [10; 20; 30]) false
     = Returns [1; 2; 3].
Proof.
  split; [|reflexivity].
  intros s c fill_by_prev Hlen Hrefl.
  destruct (own_clock_run fill_by_prev c [] [] s init_locals)
    as [st [Hrun Hnl]]; try reflexivity; try assumption; [congruence|].
  simpl in Hrun, Hnl. unfold convert_to_master_clock.
  rewrite Hrun. simpl. rewrite Hnl. reflexivity.
Qed.

(** C6 on a series of two values. *)
Lemma C6_own_clock_identity_witness :
  convert_to_master_clock [7; 8] [10; 20] (Some [10; 20]) true
  = Returns [7; 8].
Proof.
  apply (proj1 C6_own_clock_identity [7; 8] [10; 20] true).
  - reflexivity.
  - repeat constructor.
Defined.

Close Scope float_scope.

(** ** No exception *)

(** C7: for every input, whatever the lengths of the series and of its
    clock and whatever the order of the clocks, the routine returns and
    raises nothing, and every value of the output is NaN or the item of the
    series at an index within it; and whenever the corrected index
    [i - offset] of a clock index [i] is not negative, it is less than the
    length of the series, so that the read of the series there returns. *)
Theorem C7_total_and_in_bounds :
  forall (line line_clk : list float) (master_clock : option (list float))
         (fill_by_prev : bool),
    (exists out,
       convert_to_master_clock line line_clk master_clock fill_by_prev
       = Returns out
       /\ Forall (from_line line) out)
    /\ (forall i,
          0 <= i < Py.len line_clk ->
          0 <= i - (Py.len line_clk - Py.len line) ->
          i - (Py.len line_clk - Py.len line) < Py.len line
          /\ exists x,
               Py.getitem line (i - (Py.len line_clk - Py.len line))
               = Returns x).
Proof.
  intros line line_clk master_clock fill_by_prev. split.
  - destruct master_clock as [mc|].
    + destruct (locals_after_total line line_clk fill_by_prev mc)
        as [st [Hst [_ [_ Hall]]]].
      exists (new_line st). split; [apply convert_of_locals|]; assumption.
    + exists line. split; [reflexivity|].
      apply Forall_forall. intros x Hx. right. apply In_getitem. assumption.
  - intros i Hi Hpos. split; [lia|].
    destruct (getitem_inbounds line (i - (Py.len line_clk - Py.len line)))
      as [x [Hx _]]; [lia|].
    exists x. assumption.
Qed.

(** ** find_by_plotid *)

Lemma collect_filter plotid objs :
  forall founds,
    collect plotid objs founds = founds ++ filter (has_plotid plotid) objs.
Proof.
  induction objs as [|obj rest IH]; intros founds; simpl.
  - rewrite app_nil_r. reflexivity.
  - destruct (has_plotid plotid obj).
    + rewrite IH. unfold Py.append. rewrite <- app_assoc. reflexivity.
    + apply IH.
Qed.

(** The three outcomes of the lookup, by the objects that carry the
    searched identifier. *)
Lemma find_by_plotid_cases strategy plotid :
  match filter (has_plotid plotid) (chain_objs strategy) with
  | [] => find_by_plotid strategy plotid = Returns None
  | [obj] => find_by_plotid strategy plotid = Returns (Some obj)
  | _ :: _ :: _ =>
      find_by_plotid strategy plotid
      = Raises (RuntimeError (multiple_msg plotid))
  end.
Proof.
  unfold find_by_plotid. rewrite collect_filter. simpl.
  destruct (filter (has_plotid plotid) (chain_objs strategy))
    as [|o1 [|o2 rest]].
  - reflexivity.
  - reflexivity.
  - unfold Py.len. simpl List.length.
    replace (Z.of_nat (S (S (List.length rest))) =? 0) with false
      by (symmetry; apply Z.eqb_neq; lia).
    replace (Z.of_nat (S (S (List.length rest))) =? 1) with false
      by (symmetry; apply Z.eqb_neq; lia).
    reflexivity.
Qed.

(** C9: [find_by_plotid] raises exactly when more than one of the objects
    of the strategy (data feeds, indicators, observers) carries the searched
    identifier, and the error is the RuntimeError that names the identifier;
    with exactly one such object it returns that object; with none it
    returns None and does not raise. *)
Theorem C9_find_by_plotid_raises_iff_ambiguous :
  forall (strategy : strategy_t) (plotid : pyval),
    ((exists e, find_by_plotid strategy plotid = Raises e)
     <-> (1 < List.length
                (filter (has_plotid plotid) (chain_objs strategy)))%nat)
    /\ (forall e, find_by_plotid strategy plotid = Raises e ->
                  e = RuntimeError (multiple_msg plotid))
    /\ (List.length (filter (has_plotid plotid) (chain_objs strategy)) = 1%nat
        -> exists obj,
             find_by_plotid strategy plotid = Returns (Some obj)
             /\ In obj (chain_objs strategy)
             /\ has_plotid plotid obj = true
             /\ filter (has_plotid plotid) (chain_objs strategy) = [obj])
    /\ (List.length (filter (has_plotid plotid) (chain_objs strategy)) = 0%nat
        -> find_by_plotid strategy plotid = Returns None).
Proof.
  intros strategy plotid.
  pose proof (find_by_plotid_cases strategy plotid) as Hc.
  destruct (filter (has_plotid plotid) (chain_objs strategy))
    as [|o1 [|o2 rest]] eqn:Hf.
  - rewrite Hc. repeat split.
    + intros [e He]. discriminate.
    + simpl. lia.
    + intros e He. discriminate.
    + simpl. discriminate.
  - rewrite Hc. repeat split.
    + intros [e He]. discriminate.
    + simpl. lia.
    + intros e He. discriminate.
    + intros _. exists o1.
      assert (Hin : In o1 (filter (has_plotid plotid) (chain_objs strategy)))
        by (rewrite Hf; left; reflexivity).
      apply filter_In in Hin. destruct Hin as [Hin Hhas].
      repeat split; assumption.
    + simpl. discriminate.
  - rewrite Hc. repeat split.
    + intros _. simpl. lia.
    + intros _. eexists. reflexivity.
    + intros e He. inversion He. reflexivity.
    + simpl. discriminate.
    + simpl. discriminate.
Qed.

(** C9 on a strategy with one data feed tagged ["a"], one indicator tagged
    ["a"] and one observer without a [plotid]: the search for ["a"] is
    ambiguous and raises; the search for None finds the observer. *)
Lemma C9_find_by_plotid_raises_iff_ambiguous_witness :
  (exists e,
     find_by_plotid
       {| datas := [mkObj 0 (mkPlotinfo (Some (PStr "a")))];
          getindicators := [mkObj 1 (mkPlotinfo (Some (PStr "a")))];
          getobservers := [mkObj 2 (mkPlotinfo None)] |}
       (PStr "a") = Raises e)
  /\ find_by_plotid
       {| datas := [mkObj 0 (mkPlotinfo (Some (PStr "a")))];
          getindicators := [mkObj 1 (mkPlotinfo (Some (PStr "a")))];
          getobservers := [mkObj 2 (mkPlotinfo None)] |}
       PNone = Returns (Some (mkObj 2 (mkPlotinfo None))).
Proof.
  split.
  - apply (proj1 (C9_find_by_plotid_raises_iff_ambiguous
                    {| datas := [mkObj 0 (mkPlotinfo (Some (PStr "a")))];
                       getindicators := [mkObj 1 (mkPlotinfo (Some (PStr "a")))];
                       getobservers := [mkObj 2 (mkPlotinfo None)] |}
                    (PStr "a"))).
    simpl. lia.
  - reflexivity.
Defined.

(** ** The routine over the store *)

Lemma contents_old (h : Store.heap) (l : list float) (r : Store.ref) :
  (r < List.length h)%nat -> Store.contents (h ++ [l]) r = Store.contents h r.
Proof. intros Hr. unfold Store.contents. apply app_nth1. assumption. Qed.

Lemma contents_new (h : Store.heap) (l : list float) :
  Store.contents (h ++ [l]) (List.length h) = l.
Proof.
  unfold Store.contents. rewrite app_nth2 by lia.
  rewrite Nat.sub_diag. reflexivity.
Qed.

Lemma store_new (h : Store.heap) (l l' : list float) :
  Store.store (h ++ [l]) (List.length h) l' = h ++ [l'].
Proof. induction h as [|x h IH]; simpl; [reflexivity | rewrite IH; reflexivity]. Qed.

Lemma append_new (h : Store.heap) (l : list float) (x : float) :
  Store.append (h ++ [l]) (List.length h) x = h ++ [Py.append l x].
Proof. unfold Store.append. rewrite contents_new. apply store_new. Qed.

Lemma skipn_nth_error {A : Type} (l : list A) (n : nat) (x : A) :
  nth_error l n = Some x -> skipn n l = x :: skipn (S n) l.
Proof.
  revert n. induction l as [|y l IH]; intros [|n] H; simpl in H;
    try discriminate.
  - inversion H. reflexivity.
  - rewrite skipn_cons. apply IH. assumption.
Qed.

Section StoreFacts.

(** The heap [h0] of the caller, with the objects [line], [line_clk] in it. *)
Variable h0 : Store.heap.
Variables line line_clk : Store.ref.
Variable fill_by_prev : bool.
Variable clk_offset : Z.
Hypothesis line_valid : (line < List.length h0)%nat.
Hypothesis line_clk_valid : (line_clk < List.length h0)%nat.

Lemma store_scan_refines sc idxs st :
  Store.scan line line_clk clk_offset sc idxs
    (fst (lift h0 st)) (snd (lift h0 st))
  = (st' <- scan (Store.contents h0 line) (Store.contents h0 line_clk)
             clk_offset sc idxs st ;;
     Returns (lift h0 st')).
Proof.
  induction idxs as [|i rest IH]; [reflexivity|].
  simpl. rewrite contents_old by assumption.
  destruct (Py.getitem (Store.contents h0 line_clk) i) as [v|e];
    [|reflexivity].
  simpl. destruct (PrimFloat.eqb sc v).
  - destruct (i - clk_offset <? 0).
    + simpl. rewrite append_new. reflexivity.
    + rewrite contents_old by assumption.
      destruct (Py.getitem (Store.contents h0 line) (i - clk_offset))
        as [x|e]; [|reflexivity].
      simpl. rewrite append_new. reflexivity.
  - destruct (PrimFloat.ltb sc v); [reflexivity|]. apply IH.
Qed.

Lemma store_step_refines sc st :
  Store.step line line_clk clk_offset fill_by_prev sc
    (fst (lift h0 st)) (snd (lift h0 st))
  = (st' <- step (Store.contents h0 line) (Store.contents h0 line_clk)
             clk_offset fill_by_prev sc st ;;
     Returns (lift h0 st')).
Proof.
  unfold Store.step, step.
  change (Store.set_found (fst (lift h0 st)) false)
    with (fst (lift h0 (set_found st false))).
  change (snd (lift h0 st)) with (snd (lift h0 (set_found st false))).
  rewrite store_scan_refines.
  simpl Store.next_start_idx. simpl snd.
  rewrite contents_old by assumption.
  destruct (scan (Store.contents h0 line) (Store.contents h0 line_clk)
              clk_offset sc
              (Py.range (next_start_idx st)
                 (Py.len (Store.contents h0 line_clk)))
              (set_found st false)) as [st1|e]; [|reflexivity].
  simpl. destruct (found st1) eqn:Hf; simpl.
  - unfold lift. rewrite Hf. reflexivity.
  - rewrite contents_new.
    destruct (if (0 <? Py.len (new_line st1)) && fill_by_prev
              then Py.getitem (new_line st1) (-1)
              else Returns float_nan) as [x|e]; [|reflexivity].
    simpl. rewrite append_new. unfold lift. simpl. rewrite ?Hf. reflexivity.
Qed.

Variable master_clock : Store.ref.
Hypothesis master_clock_valid : (master_clock < List.length h0)%nat.

Lemma store_for_master_refines fuel :
  forall (k : Z) (st : locals),
    0 <= k <= Py.len (Store.contents h0 master_clock) ->
    (Z.to_nat (Py.len (Store.contents h0 master_clock) - k) < fuel)%nat ->
    Store.for_master line line_clk clk_offset fill_by_prev fuel master_clock k
      (fst (lift h0 st)) (snd (lift h0 st))
    = Some (st' <- for_master (Store.contents h0 line)
                     (Store.contents h0 line_clk) clk_offset fill_by_prev
                     (skipn (Z.to_nat k) (Store.contents h0 master_clock)) st ;;
            Returns (lift h0 st')).
Proof.
  induction fuel as [|fuel IH]; intros k st Hk Hfuel; [lia|].
  cbn [Store.for_master].
  change (Store.contents (snd (lift h0 st)) master_clock)
    with (Store.contents (h0 ++ [new_line st]) master_clock).
  rewrite contents_old by assumption.
  destruct (k <? Py.len (Store.contents h0 master_clock)) eqn:Hlt.
  - apply Z.ltb_lt in Hlt.
    destruct (getitem_inbounds (Store.contents h0 master_clock) k)
      as [sc [Hsc Hn]]; [lia|].
    rewrite Hsc. cbn [bind].
    rewrite store_step_refines.
    rewrite (skipn_nth_error _ _ _ Hn). cbn [for_master].
    destruct (step (Store.contents h0 line) (Store.contents h0 line_clk)
                clk_offset fill_by_prev sc st) as [st1|e]; [|reflexivity].
    cbn [bind]. unfold lift at 1.
    replace (S (Z.to_nat k)) with (Z.to_nat (k + 1)) by lia.
    apply (IH (k + 1) st1); lia.
  - apply Z.ltb_ge in Hlt.
    rewrite skipn_all2 by (unfold Py.len in *; lia).
    reflexivity.
Qed.

End StoreFacts.

(** A call with a master clock, in the heap [h]: the output is a new list
    object, after the objects of [h], and it holds what the routine
    computes from the contents of the three input lists. *)
Lemma store_convert_refines fuel (h : Store.heap) line line_clk mc fill_by_prev :
  (line < List.length h)%nat -> (line_clk < List.length h)%nat ->
  (mc < List.length h)%nat ->
  (List.length (Store.contents h mc) < fuel)%nat ->
  exists out,
    convert_to_master_clock (Store.contents h line) (Store.contents h line_clk)
      (Some (Store.contents h mc)) fill_by_prev = Returns out
    /\ Store.convert_to_master_clock fuel h line line_clk (Some mc) fill_by_prev
       = Some (Returns (List.length h, h ++ [out])).
Proof.
  intros Hl Hc Hm Hfuel.
  destruct (locals_after_total (Store.contents h line)
              (Store.contents h line_clk) fill_by_prev (Store.contents h mc))
    as [st [Hst _]].
  exists (new_line st). split; [apply convert_of_locals; assumption|].
  unfold Store.convert_to_master_clock, Store.new_list.
  pose proof (store_for_master_refines h line line_clk fill_by_prev
                (Py.len (Store.contents h line_clk)
                 - Py.len (Store.contents h line))
                Hl Hc mc Hm fuel 0 init_locals) as Hr.
  unfold lift in Hr. simpl fst in Hr. simpl snd in Hr.
  simpl skipn in Hr. simpl in Hr |- *.
  rewrite Hr.
  - unfold locals_after in Hst. rewrite Hst. reflexivity.
  - pose proof (len_nonneg (Store.contents h mc)). lia.
  - unfold Py.len. lia.
Qed.

(** One call in the heap [h]: where the result is, what it holds, and that
    every list object of [h] holds what it held. *)
Lemma store_call fuel (h : Store.heap) line line_clk master_clock fill_by_prev :
  (line < List.length h)%nat -> (line_clk < List.length h)%nat ->
  (forall mc, master_clock = Some mc ->
              (mc < List.length h)%nat
              /\ (List.length (Store.contents h mc) < fuel)%nat) ->
  exists r h' out,
    Store.convert_to_master_clock fuel h line line_clk master_clock fill_by_prev
    = Some (Returns (r, h'))
    /\ Store.contents h' r = out
    /\ convert_to_master_clock (Store.contents h line)
         (Store.contents h line_clk)
         (option_map (Store.contents h) master_clock) fill_by_prev
       = Returns out
    /\ (forall r0, (r0 < List.length h)%nat ->
                   Store.contents h' r0 = Store.contents h r0)
    /\ (List.length h <= List.length h')%nat
    /\ (master_clock <> None -> r = List.length h /\ h' = h ++ [out])
    /\ (master_clock = None -> r = line /\ h' = h).
Proof.
  intros Hl Hc Hm. destruct master_clock as [mc|].
  - destruct (Hm mc eq_refl) as [Hmc Hfuel].
    destruct (store_convert_refines fuel h line line_clk mc fill_by_prev
                Hl Hc Hmc Hfuel) as [out [Hout Hcall]].
    exists (List.length h), (h ++ [out]), out.
    split; [assumption|]. split; [apply contents_new|].
    split; [assumption|]. split; [intros r0 Hr0; apply contents_old; assumption|].
    split; [rewrite length_app; lia|].
    split; [intros _; split; reflexivity | discriminate].
  - exists line, h, (Store.contents h line).
    split; [reflexivity|]. split; [reflexivity|]. split; [reflexivity|].
    split; [reflexivity|]. split; [lia|].
    split; [intros Hne; exfalso; apply Hne; reflexivity|].
    intros _. split; reflexivity.
Qed.

Open Scope float_scope.

(** C10 (as stated, refuted): with the master clock None the result is not
    a new list: it is the caller's series object itself (reference 0 of the
    heap below), so that an append to the result shows in the series. *)
Lemma C10_passthrough_result_is_the_input :
  Store.convert_to_master_clock 0 [[1; 2]; [10; 20]] 0%nat 1%nat None false
  = Some (Returns (0%nat, [[1; 2]; [10; 20]]))
  /\ (0 < List.length [[1; 2]; [10; 20]])%nat
  /\ Store.contents (Store.append [[1; 2]; [10; 20]] 0%nat 9) 0%nat
     = [1; 2; 9].
Proof. repeat split. simpl. lia. Qed.

Close Scope float_scope.

(** C10 (amended): a call returns, and the sequence it returns is the value
    of the routine on the contents of its input sequences only, so that two
    calls with identical series, series clock, master clock and fill flag
    return identical sequences (here the second call is made in the heap
    the first one leaves); every list that exists before the call, the
    inputs among them, holds after the call what it held before; and the
    result is a newly created list whenever the master clock is not None.
    With the master clock None the result is the series object that was
    passed in. *)
Theorem C10_deterministic_inputs_unmodified :
  forall (fuel : nat) (h : Store.heap) (line line_clk : Store.ref)
         (master_clock : option Store.ref) (fill_by_prev : bool),
    (line < List.length h)%nat -> (line_clk < List.length h)%nat ->
    (forall mc, master_clock = Some mc ->
                (mc < List.length h)%nat
                /\ (List.length (Store.contents h mc) < fuel)%nat) ->
    exists r1 h1 r2 h2 out,
      Store.convert_to_master_clock fuel h line line_clk master_clock
        fill_by_prev = Some (Returns (r1, h1))
      /\ Store.convert_to_master_clock fuel h1 line line_clk master_clock
           fill_by_prev = Some (Returns (r2, h2))
      /\ convert_to_master_clock (Store.contents h line)
           (Store.contents h line_clk)
           (option_map (Store.contents h) master_clock) fill_by_prev
         = Returns out
      /\ Store.contents h1 r1 = out
      /\ Store.contents h2 r2 = out
      /\ Store.contents h2 r1 = out
      /\ (forall r0, (r0 < List.length h)%nat ->
                     Store.contents h1 r0 = Store.contents h r0
                     /\ Store.contents h2 r0 = Store.contents h r0)
      /\ (master_clock <> None ->
          r1 = List.length h /\ h1 = h ++ [out]
          /\ r2 = List.length h1 /\ h2 = h1 ++ [out])
      /\ (master_clock = None -> r1 = line /\ h1 = h /\ r2 = line /\ h2 = h).
Proof.
  intros fuel h line line_clk master_clock fill_by_prev Hl Hc Hm.
  destruct (store_call fuel h line line_clk master_clock fill_by_prev Hl Hc Hm)
    as [r1 [h1 [out [Hcall1 [Hr1 [Hout [Hold1 [Hlen1 [Hnew1 Hnone1]]]]]]]]].
  destruct (store_call fuel h1 line line_clk master_clock fill_by_prev)
    as [r2 [h2 [out2 [Hcall2 [Hr2 [Hout2 [Hold2 [Hlen2 [Hnew2 Hnone2]]]]]]]]].
  { lia. }
  { lia. }
  { intros mc Hmc. destruct (Hm mc Hmc) as [Hv Hf].
    rewrite (Hold1 mc Hv). split; [lia | assumption]. }
  assert (Hsame : out2 = out).
  { rewrite !Hold1 in Hout2 by assumption.
    replace (option_map (Store.contents h1) master_clock)
      with (option_map (Store.contents h) master_clock) in Hout2.
    - rewrite Hout in Hout2. inversion Hout2. reflexivity.
    - destruct master_clock as [mc|]; [|reflexivity]. simpl.
      destruct (Hm mc eq_refl) as [Hv _]. rewrite (Hold1 mc Hv). reflexivity. }
  rewrite Hsame in Hr2, Hnew2. clear Hsame Hout2.
  exists r1, h1, r2, h2, out.
  split; [assumption|]. split; [assumption|]. split; [assumption|].
  split; [assumption|]. split; [assumption|].
  split.
  { destruct master_clock as [mc|].
    - destruct Hnew1 as [Er1 Eh1]; [discriminate|].
      rewrite Hold2 by (rewrite Eh1, length_app, Er1; simpl; lia).
      assumption.
    - destruct (Hnone2 eq_refl) as [Er2 Eh2].
      destruct (Hnone1 eq_refl) as [Er1 Eh1]. subst. reflexivity. }
  split.
  { intros r0 Hr0. split; [apply Hold1; assumption|].
    rewrite Hold2 by lia. apply Hold1. assumption. }
  split.
  - intros Hne. destruct (Hnew1 Hne) as [E1 E2].
    destruct (Hnew2 Hne) as [E3 E4]. repeat split; assumption.
  - intros Hn. destruct (Hnone1 Hn) as [E1 E2].
    destruct (Hnone2 Hn) as [E3 E4]. subst. repeat split; reflexivity.
Qed.

Open Scope float_scope.

(** C10 on a heap of three lists: the series 1, 3, its clock 10, 30 and the
    master clock 10, 20, 30. *)
Lemma C10_deterministic_inputs_unmodified_witness :
  exists r1 h1 r2 h2 out,
    Store.convert_to_master_clock 4 [[1; 3]; [10; 30]; [10; 20; 30]]
      0%nat 1%nat (Some 2%nat) false = Some (Returns (r1, h1))
    /\ Store.convert_to_master_clock 4 h1 0%nat 1%nat (Some 2%nat) false
       = Some (Returns (r2, h2))
    /\ convert_to_master_clock
         (Store.contents [[1; 3]; [10; 30]; [10; 20; 30]] 0%nat)
         (Store.contents [[1; 3]; [10; 30]; [10; 20; 30]] 1%nat)
         (option_map (Store.contents [[1; 3]; [10; 30]; [10; 20; 30]])
            (Some 2%nat)) false
       = Returns out
    /\ Store.contents h1 r1 = out
    /\ Store.contents h2 r2 = out
    /\ Store.contents h2 r1 = out
    /\ (forall r0, (r0 < List.length [[1; 3]; [10; 30]; [10; 20; 30]])%nat ->
                   Store.contents h1 r0
                   = Store.contents [[1; 3]; [10; 30]; [10; 20; 30]] r0
                   /\ Store.contents h2 r0
                      = Store.contents [[1; 3]; [10; 30]; [10; 20; 30]] r0)
    /\ (Some 2%nat <> None ->
        r1 = List.length [[1; 3]; [10; 30]; [10; 20; 30]]
        /\ h1 = [[1; 3]; [10; 30]; [10; 20; 30]] ++ [out]
        /\ r2 = List.length h1 /\ h2 = h1 ++ [out])
    /\ (Some 2%nat = None -> r1 = 0%nat
        /\ h1 = [[1; 3]; [10; 30]; [10; 20; 30]] /\ r2 = 0%nat
        /\ h2 = [[1; 3]; [10; 30]; [10; 20; 30]]).
Proof.
  apply (C10_deterministic_inputs_unmodified 4
           [[1; 3]; [10; 30]; [10; 20; 30]] 0%nat 1%nat (Some 2%nat) false).
  - simpl. lia.
  - simpl. lia.
  - intros mc Hmc. inversion Hmc; subst mc. simpl. lia.
Defined.

Close Scope float_scope.

(** * Further properties *)

(** ** Invariants of the outer loop *)

(** A property of the locals that both branches of the loop body keep holds
    when the loop ends. *)
Lemma for_master_invariant line line_clk fill_by_prev (I : locals -> Prop) mc :
  (forall sc st, In sc mc -> 0 <= next_start_idx st -> I st ->
                 I (miss_locals fill_by_prev st)) ->
  (forall sc st i v,
     In sc mc -> 0 <= next_start_idx st <= i -> i < Py.len line_clk ->
     Py.getitem line_clk i = Returns v -> PrimFloat.eqb sc v = true ->
     I st -> I (hit_locals line (Py.len line_clk - Py.len line) st i)) ->
  forall st, 0 <= next_start_idx st -> I st ->
    exists st',
      for_master line line_clk (Py.len line_clk - Py.len line) fill_by_prev
        mc st = Returns st'
      /\ I st'.
Proof.
  induction mc as [|sc mc IH]; intros Hmiss Hhit st Hns HI.
  - exists st. split; [reflexivity | assumption].
  - simpl.
    destruct (step_cases line line_clk fill_by_prev sc st Hns)
      as [Hs | [i [v [Hi [Hv [He Hs]]]]]]; rewrite Hs; simpl.
    + apply IH.
      * intros sc' st' Hin. apply (Hmiss sc' st'). right. assumption.
      * intros sc' st' i' v' Hin. apply (Hhit sc' st' i' v'). right. assumption.
      * simpl. assumption.
      * apply (Hmiss sc); [left; reflexivity | assumption | assumption].
    + apply IH.
      * intros sc' st' Hin. apply (Hmiss sc' st'). right. assumption.
      * intros sc' st' i' v' Hin. apply (Hhit sc' st' i' v'). right. assumption.
      * simpl. lia.
      * apply (Hhit sc st i v); try assumption; [left; reflexivity | lia | lia].
Qed.

Lemma convert_invariant line line_clk fill_by_prev (I : locals -> Prop) mc :
  (forall sc st, In sc mc -> 0 <= next_start_idx st -> I st ->
                 I (miss_locals fill_by_prev st)) ->
  (forall sc st i v,
     In sc mc -> 0 <= next_start_idx st <= i -> i < Py.len line_clk ->
     Py.getitem line_clk i = Returns v -> PrimFloat.eqb sc v = true ->
     I st -> I (hit_locals line (Py.len line_clk - Py.len line) st i)) ->
  I init_locals ->
  exists st,
    convert_to_master_clock line line_clk (Some mc) fill_by_prev
    = Returns (new_line st)
    /\ I st /\ List.length (new_line st) = List.length mc.
Proof.
  intros Hmiss Hhit Hinit.
  destruct (for_master_invariant line line_clk fill_by_prev I mc Hmiss Hhit
              init_locals) as [st [Hrun HI]]; [simpl; lia | assumption |].
  exists st. split; [apply convert_of_locals; assumption|].
  split; [assumption|].
  destruct (locals_after_total line line_clk fill_by_prev mc)
    as [st' [Hst' [Hlen _]]].
  unfold locals_after in Hst'. rewrite Hrun in Hst'.
  inversion Hst'; subst st'. assumption.
Qed.

(** ** nanfilt *)

Lemma is_number_not_nan (x : float) :
  is_number x <-> negb (PrimFloat.is_nan x) = true.
Proof.
  unfold is_number, PrimFloat.is_nan. rewrite negb_involutive. tauto.
Qed.

Lemma nanfilt_app (a b : list float) :
  nanfilt (a ++ b) = nanfilt a ++ nanfilt b.
Proof. unfold nanfilt. apply filter_app. Qed.

Lemma nanfilt_nan (l : list float) : nanfilt (l ++ [float_nan]) = nanfilt l.
Proof. rewrite nanfilt_app. simpl. apply app_nil_r. Qed.

Lemma subseq_refl {A : Type} (l : list A) : subseq l l.
Proof. induction l; constructor; assumption. Qed.

Lemma subseq_nil_l {A : Type} (l : list A) : subseq [] l.
Proof. induction l; constructor; assumption. Qed.

Lemma subseq_app {A : Type} (a a' b b' : list A) :
  subseq a a' -> subseq b b' -> subseq (a ++ b) (a' ++ b').
Proof.
  intros Ha Hb. induction Ha; simpl; try constructor; assumption.
Qed.

Lemma subseq_app_r {A : Type} (l a b : list A) :
  subseq l a -> subseq l (a ++ b).
Proof.
  intros H. rewrite <- (app_nil_r l). apply subseq_app; [assumption|].
  apply subseq_nil_l.
Qed.

Lemma subseq_length {A : Type} (l l' : list A) :
  subseq l l' -> (List.length l <= List.length l')%nat.
Proof. induction 1; simpl; lia. Qed.

Lemma subseq_filter {A : Type} (f : A -> bool) (l : list A) :
  subseq (filter f l) l.
Proof.
  induction l as [|x l IH]; simpl; [constructor|].
  destruct (f x); constructor; assumption.
Qed.

(** X1: [nanfilt] returns the numbers of its input, in their order: the
    result is a subsequence of the input, it holds no NaN, it keeps every
    value of the input that is a number, filtering it again changes nothing,
    and it is the input itself exactly when the input holds no NaN. *)
Theorem X1_nanfilt_keeps_the_numbers :
  forall (x : list float),
    subseq (nanfilt x) x
    /\ Forall is_number (nanfilt x)
    /\ (forall v, In v x -> is_number v -> In v (nanfilt x))
    /\ nanfilt (nanfilt x) = nanfilt x
    /\ (nanfilt x = x <-> Forall is_number x).
Proof.
  intros x. split; [apply subseq_filter|]. split.
  { apply Forall_forall. intros v Hv. apply filter_In in Hv.
    apply is_number_not_nan. tauto. }
  split.
  { intros v Hin Hnum. apply filter_In. split; [assumption|].
    apply is_number_not_nan. assumption. }
  split.
  { unfold nanfilt. induction x as [|v x IH]; simpl; [reflexivity|].
    destruct (negb (PrimFloat.is_nan v)) eqn:Hv; simpl.
    - rewrite Hv, IH. reflexivity.
    - assumption. }
  split.
  - intros Heq. rewrite <- Heq. apply Forall_forall. intros v Hv.
    apply filter_In in Hv. apply is_number_not_nan. tauto.
  - intros Hall. unfold nanfilt. induction Hall as [|v x Hv Hall IH];
      simpl; [reflexivity|].
    apply is_number_not_nan in Hv. rewrite Hv, IH. reflexivity.
Qed.

(** ** Alignment: further properties *)

Lemma last_repeat {A : Type} (x : A) (n : nat) : last (repeat x n) x = x.
Proof.
  induction n as [|n IH]; [reflexivity|]. simpl.
  destruct (repeat x n) eqn:E; [reflexivity | assumption].
Qed.

Lemma repeat_snoc {A : Type} (x : A) (n : nat) :
  repeat x n ++ [x] = repeat x (S n).
Proof. symmetry. apply repeat_cons. Qed.

Lemma fill_value_repeat_nan fill_by_prev (k : nat) :
  fill_value fill_by_prev (repeat float_nan k) = float_nan.
Proof.
  unfold fill_value.
  destruct ((0 <? Py.len (repeat float_nan k)) && fill_by_prev);
    [apply last_repeat | reflexivity].
Qed.

(** X2: when no timestamp of the master clock is equal to an entry of the
    series clock (an empty series clock, for instance), every value of the
    output is NaN, with or without the previous-value fill, whatever the
    series holds; [nanfilt] then leaves nothing. *)
Theorem X2_no_common_timestamp_all_nan :
  forall (line line_clk mc : list float) (fill_by_prev : bool),
    Forall (fun m => Forall (fun w => PrimFloat.eqb m w = false) line_clk) mc ->
    convert_to_master_clock line line_clk (Some mc) fill_by_prev
    = Returns (repeat float_nan (List.length mc))
    /\ nanfilt (repeat float_nan (List.length mc)) = [].
Proof.
  intros line line_clk mc fill_by_prev Hno. split.
  - destruct (convert_invariant line line_clk fill_by_prev
                (fun st => exists k, new_line st = repeat float_nan k) mc)
      as [st [Hout [[k Hk] Hlen]]].
    + intros sc st _ _ [k Hk]. exists (S k). simpl.
      rewrite Hk, fill_value_repeat_nan. apply repeat_snoc.
    + intros sc st i v Hin _ _ Hv He _. exfalso.
      rewrite Forall_forall in Hno. specialize (Hno sc Hin).
      rewrite Forall_forall in Hno.
      rewrite (Hno v (getitem_In _ _ _ Hv)) in He. discriminate.
    + exists 0%nat. reflexivity.
    + rewrite Hout. f_equal. rewrite Hk in Hlen |- *.
      rewrite repeat_length in Hlen. subst k. reflexivity.
  - induction (List.length mc) as [|n IH]; [reflexivity | assumption].
Qed.

Open Scope float_scope.

(** X2 on a master clock 1, 2 against the series clock 10, 20. *)
Lemma X2_no_common_timestamp_all_nan_witness :
  convert_to_master_clock [7; 8] [10; 20] (Some [1; 2]) true
  = Returns (repeat float_nan (List.length [1; 2]))
  /\ nanfilt (repeat float_nan (List.length [1; 2])) = [].
Proof.
  apply (X2_no_common_timestamp_all_nan [7; 8] [10; 20] [1; 2] true).
  repeat constructor.
Defined.

Close Scope float_scope.

Lemma emitted_negative line off i :
  i - off < 0 -> emitted line off i = float_nan.
Proof.
  intros H. unfold emitted. apply Z.ltb_lt in H. rewrite H. reflexivity.
Qed.

Lemma emitted_item line off i :
  0 <= i - off < Py.len line ->
  emitted line off i = nth (Z.to_nat (i - off)) line float_nan
  /\ In (emitted line off i) line.
Proof.
  intros H. unfold emitted.
  replace (i - off <? 0) with false by (symmetry; apply Z.ltb_ge; lia).
  split; [reflexivity|]. apply nth_In. unfold Py.len in H. lia.
Qed.

(** X3: with the previous-value fill, over a series that holds no NaN, the
    output has no gap once a value is out: it is a run of NaN (the master
    timestamps before the first hit on an item of the series) followed by
    numbers only. *)
Theorem X3_fill_leaves_no_gap_after_first_value :
  forall (line line_clk mc : list float),
    Forall is_number line ->
    exists out k vals,
      convert_to_master_clock line line_clk (Some mc) true = Returns out
      /\ out = repeat float_nan k ++ vals
      /\ Forall is_number vals.
Proof.
  intros line line_clk mc Hline.
  destruct (convert_invariant line line_clk true
              (filled (Py.len line_clk - Py.len line)) mc)
    as [st [Hout [[k [vals [Hnl [Hvals _]]]] _]]].
  - intros sc st _ _ [k [vals [Hnl [Hvals Hcur]]]].
    unfold filled, miss_locals. simpl.
    destruct vals as [|y vals'] using rev_ind.
    + exists (S k), []. rewrite app_nil_r in Hnl.
      rewrite Hnl, fill_value_repeat_nan, repeat_snoc, app_nil_r.
      repeat split; [constructor | congruence].
    + clear IHvals'. exists k, ((vals' ++ [y]) ++ [y]).
      assert (Hfill : fill_value true (new_line st) = y).
      { unfold fill_value. rewrite Hnl, app_assoc, last_last.
        rewrite len_app. unfold Py.len at 2. simpl.
        pose proof (len_nonneg (repeat float_nan k ++ vals')).
        replace (0 <? Py.len (repeat float_nan k ++ vals') + 1) with true
          by (symmetry; apply Z.ltb_lt; lia).
        reflexivity. }
      rewrite Hfill, Hnl, <- app_assoc.
      split; [reflexivity|]. split.
      * apply Forall_app. split; [assumption|].
        apply Forall_app in Hvals. tauto.
      * intros _. apply Hcur. intros E. destruct vals'; discriminate.
  - intros sc st i v _ Hi Hlt _ _ [k [vals [Hnl [Hvals Hcur]]]].
    unfold filled, hit_locals. simpl.
    destruct (Z.ltb_spec (i - (Py.len line_clk - Py.len line)) 0) as [Hneg|Hpos].
    + rewrite emitted_negative by assumption.
      destruct vals as [|y vals'].
      * exists (S k), []. rewrite app_nil_r in Hnl.
        rewrite Hnl, repeat_snoc, app_nil_r.
        repeat split; [constructor | congruence].
      * assert (Py.len line_clk - Py.len line <= next_start_idx st)
          by (apply Hcur; discriminate).
        lia.
    + destruct (emitted_item line (Py.len line_clk - Py.len line) i)
        as [_ Hin]; [lia|].
      exists k, (vals ++ [emitted line (Py.len line_clk - Py.len line) i]).
      rewrite Hnl, <- app_assoc. split; [reflexivity|]. split.
      * apply Forall_app. split; [assumption|]. constructor; [|constructor].
        rewrite Forall_forall in Hline. apply Hline. assumption.
      * intros _. lia.
  - exists 0%nat, []. simpl. repeat split; [constructor | congruence].
  - exists (new_line st), k, vals. repeat split; assumption.
Qed.

Open Scope float_scope.

(** X3 on the master clock 5, 10, 20, 30 over the series 1, 3 on the clock
    10, 30. *)
Lemma X3_fill_leaves_no_gap_after_first_value_witness :
  exists out k vals,
    convert_to_master_clock [1; 3] [10; 30] (Some [5; 10; 20; 30]) true
    = Returns out
    /\ out = repeat float_nan k ++ vals
    /\ Forall is_number vals.
Proof.
  apply (X3_fill_leaves_no_gap_after_first_value [1; 3] [10; 30]
           [5; 10; 20; 30]).
  repeat constructor.
Defined.

Close Scope float_scope.

Lemma firstn_snoc_nth {A : Type} (l : list A) (n : nat) (d : A) :
  (n < List.length l)%nat -> firstn (S n) l = firstn n l ++ [nth n l d].
Proof.
  revert n. induction l as [|x l IH]; intros n Hn; simpl in Hn; [lia|].
  destruct n as [|n]; [reflexivity|].
  simpl. f_equal. apply IH. lia.
Qed.

Lemma subseq_firstn_le {A : Type} (l L : list A) (n m : nat) :
  (n <= m)%nat -> subseq l (firstn n L) -> subseq l (firstn m L).
Proof.
  intros Hle H.
  rewrite <- (firstn_skipn n (firstn m L)), firstn_firstn.
  replace (Nat.min n m) with n by lia.
  apply subseq_app_r. assumption.
Qed.

(** X4: without the fill, the numbers of the output are taken from the
    series in its order, each item at most once: what [nanfilt] keeps of
    the output is a subsequence of the series, so the output holds at most
    as many numbers as the series has items. *)
Theorem X4_no_fill_output_is_subsequence_of_series :
  forall (line line_clk mc : list float),
  exists out,
    convert_to_master_clock line line_clk (Some mc) false = Returns out
    /\ subseq (nanfilt out) line
    /\ (List.length (nanfilt out) <= List.length line)%nat.
Proof.
  intros line line_clk mc.
  destruct (convert_invariant line line_clk false
              (fun st =>
                 subseq (nanfilt (new_line st))
                   (firstn (Z.to_nat (next_start_idx st
                                      - (Py.len line_clk - Py.len line)))
                      line)) mc)
    as [st [Hout [Hsub _]]].
  - intros sc st _ _ Hsub. unfold miss_locals. simpl.
    unfold fill_value. rewrite andb_false_r. rewrite nanfilt_nan. assumption.
  - intros sc st i v _ Hi Hlt _ _ Hsub. unfold hit_locals. simpl.
    destruct (Z.ltb_spec (i - (Py.len line_clk - Py.len line)) 0) as [Hneg|Hpos].
    + rewrite emitted_negative by assumption. rewrite nanfilt_nan.
      apply subseq_firstn_le
        with (n := Z.to_nat (next_start_idx st
                             - (Py.len line_clk - Py.len line)));
        [lia | assumption].
    + destruct (emitted_item line (Py.len line_clk - Py.len line) i)
        as [Hem _]; [lia|].
      rewrite Hem, nanfilt_app.
      replace (Z.to_nat (i + 1 - (Py.len line_clk - Py.len line)))
        with (S (Z.to_nat (i - (Py.len line_clk - Py.len line)))) by lia.
      rewrite (firstn_snoc_nth line _ float_nan) by (unfold Py.len in *; lia).
      apply subseq_app.
      * apply subseq_firstn_le
          with (n := Z.to_nat (next_start_idx st
                               - (Py.len line_clk - Py.len line)));
          [lia | assumption].
      * apply subseq_filter.
  - simpl. apply subseq_nil_l.
  - exists (new_line st). split; [assumption|].
    assert (Hall : subseq (nanfilt (new_line st)) line).
    { rewrite <- (firstn_skipn
                    (Z.to_nat (next_start_idx st
                               - (Py.len line_clk - Py.len line))) line).
      apply subseq_app_r. assumption. }
    split; [assumption | apply subseq_length; assumption].
Qed.

(** ** paramval2str *)

Lemma join_items_strs (ss : list string) :
  forall i, join_items i (map VStr ss) = Ok ss.
Proof.
  induction ss as [|s ss IH]; intros i; simpl; [reflexivity|].
  rewrite IH. reflexivity.
Qed.

Lemma join_items_bad (pre : list string) (x : value) (post : list value) :
  (forall s, x <> VStr s) ->
  forall i, join_items i (map VStr pre ++ x :: post)
            = Err (TypeError (JoinItemNotStr (i + List.length pre))).
Proof.
  intros Hx. induction pre as [|s pre IH]; intros i; simpl.
  - rewrite Nat.add_0_r. destruct x; try reflexivity.
    exfalso. apply (Hx s). reflexivity.
  - rewrite IH. simpl. repeat f_equal. lia.
Qed.

(** X5: a parameter that is a list or a tuple (and is not named
    "timeframe") is formatted as its items joined by commas when all of them
    are strings; when an item is not a string (a number, None, a nested
    list) the call raises the TypeError of [str.join], at the first such
    item. *)
Theorem X5_paramval2str_joins_strings_only :
  forall (getname : value -> result string) (format_2f : float -> string)
         (name : string) (items : list value),
    String.eqb name "timeframe" = false ->
    (forall ss, items = map VStr ss ->
       paramval2str getname format_2f name (VList items)
       = Ok (String.concat "," ss)
       /\ paramval2str getname format_2f name (VTuple items)
          = Ok (String.concat "," ss))
    /\ (forall pre x post,
          items = map VStr pre ++ x :: post -> (forall s, x <> VStr s) ->
          paramval2str getname format_2f name (VList items)
          = Err (TypeError (JoinItemNotStr (List.length pre)))
          /\ paramval2str getname format_2f name (VTuple items)
             = Err (TypeError (JoinItemNotStr (List.length pre)))).
Proof.
  intros getname format_2f name items Hname. split.
  - intros ss Hss. subst items. unfold paramval2str, str_join.
    rewrite Hname, join_items_strs. split; reflexivity.
  - intros pre x post Hitems Hx. subst items. unfold paramval2str, str_join.
    rewrite Hname, (join_items_bad pre x post Hx 0). split; reflexivity.
Qed.

(** X5 on a parameter [periods] holding the tuple of the strings "a" and
    "b", and on one holding a list that starts with a number. *)
Lemma X5_paramval2str_joins_strings_only_witness :
  paramval2str (fun _ => Ok ""%string) (fun _ => ""%string) "periods"
    (VTuple [VStr "a"; VStr "b"]) = Ok "a,b"%string
  /\ paramval2str (fun _ => Ok ""%string) (fun _ => ""%string) "periods"
       (VList [VOther "10"; VOther "20"])
     = Err (TypeError (JoinItemNotStr 0)).
Proof.
  split.
  - apply (proj1 (X5_paramval2str_joins_strings_only
                    (fun _ => Ok ""%string) (fun _ => ""%string) "periods"
                    [VStr "a"; VStr "b"] eq_refl) ["a"; "b"]%string eq_refl).
  - apply (proj2 (X5_paramval2str_joins_strings_only
                    (fun _ => Ok ""%string) (fun _ => ""%string) "periods"
                    [VOther "10"; VOther "20"] eq_refl)
             [] (VOther "10") [VOther "20"] eq_refl).
    intros s. discriminate.
Defined.

(** ** The parameter dicts *)

Lemma dict_get_setitem (d : dict) (k k' : string) (v : value) :
  dict_get (dict_setitem d k v) k'
  = if String.eqb k k' then Some v else dict_get d k'.
Proof.
  induction d as [|[k0 v0] d IH]; simpl.
  - reflexivity.
  - destruct (String.eqb_spec k0 k) as [E|N]; simpl.
    + subst k0. destruct (String.eqb k k'); reflexivity.
    + destruct (String.eqb_spec k0 k') as [E'|N'].
      * subst k0. destruct (String.eqb_spec k k'); [congruence | reflexivity].
      * apply IH.
Qed.

Lemma nondefault_from_get (p : params_t) (keys : list string) :
  forall (d : dict) (k : string),
    dict_get (nondefault_from p keys d) k
    = if existsb (String.eqb k) keys && negb (isdefault p k)
      then Some (_get p k) else dict_get d k.
Proof.
  induction keys as [|key keys IH]; intros d k; simpl; [reflexivity|].
  destruct (String.eqb_spec k key) as [E|N]; simpl.
  - subst key. destruct (isdefault p k) eqn:Hd; simpl.
    + rewrite IH, Hd, andb_false_r. reflexivity.
    + rewrite IH, Hd, andb_true_r, dict_get_setitem, String.eqb_refl.
      destruct (existsb (String.eqb k) keys); reflexivity.
  - destruct (isdefault p key); simpl; rewrite IH; [reflexivity|].
    rewrite dict_get_setitem.
    destruct (String.eqb_spec key k); [congruence | reflexivity].
Qed.

Lemma all_from_get (p : params_t) (keys : list string) :
  forall (d : dict) (k : string),
    dict_get (all_from p keys d) k
    = if existsb (String.eqb k) keys then Some (_get p k) else dict_get d k.
Proof.
  induction keys as [|key keys IH]; intros d k; simpl; [reflexivity|].
  rewrite IH, dict_get_setitem.
  destruct (String.eqb_spec k key) as [E|N]; simpl.
  - subst key. rewrite String.eqb_refl.
    destruct (existsb (String.eqb k) keys); reflexivity.
  - destruct (String.eqb_spec key k); [congruence | reflexivity].
Qed.

Lemma existsb_eqb_In (k : string) (keys : list string) :
  existsb (String.eqb k) keys = true <-> In k keys.
Proof.
  rewrite existsb_exists. split.
  - intros [x [Hin He]]. apply String.eqb_eq in He. subst. assumption.
  - intros Hin. exists k. split; [assumption | apply String.eqb_refl].
Qed.

(** X6: the dict of [get_params] maps exactly the keys of the params object,
    each to the value [_get] gives, also when a key is listed more than
    once; the dict of [get_nondefault_params] is that dict without the keys
    that are at their default. *)
Theorem X6_nondefault_params_restrict_params :
  forall (params : params_t) (k : string),
    (forall v, dict_get (get_params params) k = Some v
               <-> In k (_getkeys params) /\ v = _get params k)
    /\ dict_get (get_nondefault_params params) k
       = if isdefault params k then None else dict_get (get_params params) k.
Proof.
  intros params k. unfold get_params, get_nondefault_params.
  rewrite all_from_get, nondefault_from_get. simpl. split.
  - intros v. destruct (existsb (String.eqb k) (_getkeys params)) eqn:He.
    + apply existsb_eqb_In in He. split.
      * intros E. inversion E. split; [assumption | reflexivity].
      * intros [_ E]. subst v. reflexivity.
    + split; [discriminate|]. intros [Hin _].
      apply existsb_eqb_In in Hin. congruence.
  - destruct (existsb (String.eqb k) (_getkeys params));
      destruct (isdefault params k); reflexivity.
Qed.

Lemma dict_setitem_fresh (d : dict) (k : string) (v : value) :
  ~ In k (map fst d) -> dict_setitem d k v = d ++ [(k, v)].
Proof.
  induction d as [|[k0 v0] d IH]; intros Hk; simpl; [reflexivity|].
  simpl in Hk. destruct (String.eqb_spec k0 k) as [E|N]; [tauto|].
  rewrite IH by tauto. reflexivity.
Qed.

Lemma nondefault_from_nodup (p : params_t) (keys : list string) :
  forall d,
    NoDup keys -> (forall k, In k keys -> ~ In k (map fst d)) ->
    nondefault_from p keys d
    = d ++ map (fun k => (k, _get p k))
             (filter (fun k => negb (isdefault p k)) keys).
Proof.
  induction keys as [|key keys IH]; intros d Hnd Hfresh; simpl.
  - rewrite app_nil_r. reflexivity.
  - inversion Hnd as [|? ? Hnotin Hnd']; subst.
    destruct (negb (isdefault p key)); simpl.
    + rewrite IH; [|assumption|].
      * rewrite dict_setitem_fresh by (apply Hfresh; left; reflexivity).
        rewrite <- app_assoc. reflexivity.
      * intros k Hk. rewrite dict_setitem_fresh
          by (apply Hfresh; left; reflexivity).
        rewrite map_app, in_app_iff. simpl. intros [H | [H | []]].
        -- apply (Hfresh k); [right; assumption | assumption].
        -- subst k. contradiction.
    + apply IH; [assumption|]. intros k Hk. apply Hfresh. right. assumption.
Qed.

(** X7: when the keys of the params object are distinct, the items of
    [get_nondefault_params] are the keys that are not at their default, in
    the order of the keys, each with its value. *)
Theorem X7_nondefault_params_in_key_order :
  forall (params : params_t),
    NoDup (_getkeys params) ->
    get_nondefault_params params
    = map (fun k => (k, _get params k))
        (filter (fun k => negb (isdefault params k)) (_getkeys params)).
Proof.
  intros params Hnd. unfold get_nondefault_params.
  rewrite nondefault_from_nodup; [reflexivity | assumption |].
  intros k _ [].
Qed.

(** X7 on the keys period, movav, where period is at its default. *)
Lemma X7_nondefault_params_in_key_order_witness :
  get_nondefault_params
    {| _getkeys := ["period"; "movav"]%string;
       _get := fun k => if String.eqb k "period" then VOther "14"
                        else VType "SMA";
       isdefault := fun k => String.eqb k "period" |}
  = [("movav"%string, VType "SMA")].
Proof.
  apply (X7_nondefault_params_in_key_order
           {| _getkeys := ["period"; "movav"]%string;
              _get := fun k => if String.eqb k "period" then VOther "14"
                               else VType "SMA";
              isdefault := fun k => String.eqb k "period" |}).
  simpl. constructor.
  - simpl. intros [H | []]. discriminate.
  - constructor; [intros [] | constructor].
Defined.

(** ** get_params_str *)

Lemma dict_setitem_In (d : dict) (k : string) (v : value) (x : string)
    (y : value) :
  In (x, y) (dict_setitem d k v) -> In (x, y) d \/ (x = k /\ y = v).
Proof.
  induction d as [|[k0 v0] d IH]; simpl.
  - intros [E | []]. inversion E. right. split; reflexivity.
  - destruct (String.eqb_spec k0 k) as [E|N]; simpl.
    + intros [H | H]; [|left; right; assumption].
      inversion H. subst. right. split; reflexivity.
    + intros [H | H]; [left; left; assumption|].
      destruct (IH H) as [H' | H']; [left; right; assumption | right; assumption].
Qed.

Lemma nondefault_from_In (p : params_t) (keys : list string) :
  forall (d : dict) (x : string) (y : value),
    In (x, y) (nondefault_from p keys d) ->
    In (x, y) d
    \/ (In x keys /\ isdefault p x = false /\ y = _get p x).
Proof.
  induction keys as [|key keys IH]; intros d x y Hin; simpl in Hin.
  - left. assumption.
  - destruct (isdefault p key) eqn:Hd; simpl in Hin.
    + destruct (IH _ _ _ Hin) as [H | [H1 H2]]; [left; assumption|].
      right. split; [right; assumption | assumption].
    + destruct (IH _ _ _ Hin) as [H | [H1 H2]].
      * apply dict_setitem_In in H. destruct H as [H | [Hx Hy]];
          [left; assumption|].
        subst. right. split; [left; reflexivity | split; [assumption | reflexivity]].
      * right. split; [right; assumption | assumption].
Qed.

Lemma nondefault_from_all_default (p : params_t) (keys : list string) :
  (forall k, In k keys -> isdefault p k = true) ->
  forall d, nondefault_from p keys d = d.
Proof.
  induction keys as [|key keys IH]; intros Hall d; simpl; [reflexivity|].
  rewrite (Hall key) by (left; reflexivity). simpl.
  apply IH. intros k Hk. apply Hall. right. assumption.
Qed.

Section FormattingFacts.

Variable getname : value -> result string.
Variable format_2f : float -> string.

Lemma plabs_of_Err (items : list (string * value)) (e : raised) :
  plabs_of getname format_2f items = Err e ->
  exists x y, In (x, y) items /\ paramval2str getname format_2f x y = Err e.
Proof.
  induction items as [|[x y] items IH]; simpl; [discriminate|].
  destruct (paramval2str getname format_2f x y) as [s|e'] eqn:Hp; simpl.
  - destruct (plabs_of getname format_2f items) as [ss|e'']; simpl;
      [discriminate|].
    intros E. inversion E; subst e''.
    destruct (IH eq_refl) as [x' [y' [Hin Hp']]].
    exists x', y'. split; [right; assumption | assumption].
  - intros E. inversion E; subst e'. exists x, y.
    split; [left; reflexivity | assumption].
Qed.

Lemma plabs_of_Ok (items : list (string * value)) :
  (forall x y, In (x, y) items ->
               exists s, paramval2str getname format_2f x y = Ok s) ->
  exists ss, plabs_of getname format_2f items = Ok ss.
Proof.
  induction items as [|[x y] items IH]; intros Hall; simpl.
  - exists []. reflexivity.
  - destruct (Hall x y (or_introl eq_refl)) as [s Hs]. rewrite Hs. simpl.
    destruct IH as [ss Hss];
      [intros x' y' H; apply Hall; right; assumption|].
    rewrite Hss. simpl. eexists. reflexivity.
Qed.

End FormattingFacts.

(** X8: [get_params_str] formats the parameters that are not at their
    default and no other: it returns when each of them can be formatted,
    whatever the parameters at their default hold; when it raises, the error
    is the one [paramval2str] raises on a parameter that is not at its
    default; and when every parameter is at its default it returns the empty
    string. *)
Theorem X8_get_params_str_formats_nondefault_only :
  forall (getname : value -> result string) (format_2f : float -> string)
         (params : params_t),
    ((forall k, In k (_getkeys params) -> isdefault params k = false ->
                exists s, paramval2str getname format_2f k (_get params k)
                          = Ok s) ->
     exists s, get_params_str getname format_2f params = Ok s)
    /\ (forall e, get_params_str getname format_2f params = Err e ->
          exists k, In k (_getkeys params) /\ isdefault params k = false
                    /\ paramval2str getname format_2f k (_get params k)
                       = Err e)
    /\ ((forall k, In k (_getkeys params) -> isdefault params k = true) ->
        get_params_str getname format_2f params = Ok ""%string).
Proof.
  intros getname format_2f params. unfold get_params_str. split; [|split].
  - intros Hall.
    destruct (plabs_of_Ok getname format_2f (get_nondefault_params params))
      as [ss Hss].
    + intros x y Hin. apply nondefault_from_In in Hin.
      destruct Hin as [[] | [Hk [Hd Hy]]]. subst y. apply Hall; assumption.
    + rewrite Hss. simpl. eexists. reflexivity.
  - intros e He.
    destruct (plabs_of getname format_2f (get_nondefault_params params))
      as [ss|e'] eqn:Hp; simpl in He; [discriminate|].
    inversion He; subst e'.
    destruct (plabs_of_Err getname format_2f _ _ Hp) as [x [y [Hin Hxy]]].
    apply nondefault_from_In in Hin.
    destruct Hin as [[] | [Hk [Hd Hy]]]. subst y.
    exists x. repeat split; assumption.
  - intros Hall. unfold get_nondefault_params.
    rewrite nondefault_from_all_default by assumption. reflexivity.
Qed.

(** X8 on the parameters period (at its default, holding a list of
    numbers that could not be formatted) and movav (set to a class). *)
Lemma X8_get_params_str_formats_nondefault_only_witness :
  exists s,
    get_params_str (fun _ => Ok ""%string) (fun _ => ""%string)
      {| _getkeys := ["period"; "movav"]%string;
         _get := fun k => if String.eqb k "period" then VList [VOther "14"]
                          else VType "SMA";
         isdefault := fun k => String.eqb k "period" |}
    = Ok s.
Proof.
  apply (proj1 (X8_get_params_str_formats_nondefault_only
                  (fun _ => Ok ""%string) (fun _ => ""%string)
                  {| _getkeys := ["period"; "movav"]%string;
                     _get := fun k => if String.eqb k "period"
                                      then VList [VOther "14"]
                                      else VType "SMA";
                     isdefault := fun k => String.eqb k "period" |})).
  simpl. intros k [Hk | [Hk | []]] Hd; subst k; simpl in Hd;
    [discriminate|].
  exists "SMA"%string. reflexivity.
Defined.

(** ** convert_to_pandas *)

Section PandasFacts.

Variable DataFrame : Type.
Variable date : Type.
Variable pd_DataFrame : DataFrame.
Variable setitem : DataFrame -> string -> @column date -> result DataFrame.
Variable num2date : float -> result date.
Variable obj : lineseries.
Variables start end_ : option Z.
Variable name_prefix : string.

Local Abbreviation add_lines' :=
  (add_lines DataFrame date setitem).
Local Abbreviation lines_clk :=
  (plotrange (lines_datetime obj) start end_).

(** Without a master clock, the loop over the lines returns or stops on
    an error of a column assignment. *)
Lemma add_lines_None idxs :
  forall df,
    (exists df', add_lines' None obj start end_ name_prefix lines_clk idxs df
                 = Ok df')
    \/ (exists e df0 name c,
          add_lines' None obj start end_ name_prefix lines_clk idxs df = Err e
          /\ setitem df0 name c = Err e).
Proof.
  induction idxs as [|lineidx idxs IH]; intros df; simpl.
  - left. exists df. reflexivity.
  - destruct (String.eqb (_getlinealias obj lineidx) "datetime");
      [apply IH|].
    simpl.
    destruct (setitem df (name_prefix ++ _getlinealias obj lineidx)%string
                (FloatColumn (plotrange (lines_at obj lineidx) start end_)))
      as [df1|e] eqn:Hs; simpl.
    + apply IH.
    + right. exists e, df, (name_prefix ++ _getlinealias obj lineidx)%string,
        (FloatColumn (plotrange (lines_at obj lineidx) start end_)).
      split; [reflexivity | assumption].
Qed.

Variable mc : list float.

Lemma aligned_column lineidx :
  exists vals,
    convert_to_master_clock (plotrange (lines_at obj lineidx) start end_)
      lines_clk (Some mc) false = Returns vals
    /\ List.length vals = List.length mc.
Proof.
  destruct (locals_after_total (plotrange (lines_at obj lineidx) start end_)
              lines_clk false mc) as [st [Hst [Hlen _]]].
  exists (new_line st). split; [apply convert_of_locals|]; assumption.
Qed.

(** With a master clock, the loop over the lines stops only on an error of
    a column assignment, and a property of the frame that every assignment
    of a column of the lines keeps holds when the loop returns. *)
Lemma add_lines_Some (Inv : DataFrame -> Prop) idxs :
  Forall (fun i => 0 <= i < size obj) idxs ->
  (forall df name c df',
     Inv df -> setitem df name c = Ok df' ->
     data_column mc obj start end_ name_prefix name c -> Inv df') ->
  forall df,
    Inv df ->
    (exists df', add_lines' (Some mc) obj start end_ name_prefix lines_clk
                   idxs df = Ok df' /\ Inv df')
    \/ (exists e df0 name c,
          add_lines' (Some mc) obj start end_ name_prefix lines_clk idxs df
          = Err e
          /\ setitem df0 name c = Err e).
Proof.
  intros Hidx Hkeep. induction Hidx as [|lineidx idxs Hi Hrest IH];
    intros df HInv; cbn [add_lines].
  - left. exists df. split; [reflexivity | assumption].
  - destruct (String.eqb (_getlinealias obj lineidx) "datetime") eqn:Hal;
      [apply IH; assumption|].
    destruct (aligned_column lineidx) as [vals [Hvals Hlen]].
    rewrite Hvals. cbn [of_outcome rbind].
    destruct (setitem df (name_prefix ++ _getlinealias obj lineidx)%string
                (FloatColumn vals)) as [df1|e] eqn:Hs; cbn [rbind].
    + apply IH. apply (Hkeep df _ _ df1 HInv Hs).
      exists lineidx, vals. repeat split; try assumption; lia.
    + right. exists e, df, (name_prefix ++ _getlinealias obj lineidx)%string,
        (FloatColumn vals).
      split; [reflexivity | assumption].
Qed.

Lemma num2dates_cases (xs : list float) :
  (exists ds, num2dates date num2date xs = Ok ds
              /\ List.length ds = List.length xs)
  \/ (exists e x, num2dates date num2date xs = Err e
                  /\ In x xs /\ num2date x = Err e).
Proof.
  induction xs as [|x xs IH]; simpl.
  - left. exists []. split; reflexivity.
  - destruct (num2date x) as [d|e] eqn:Hd; simpl.
    + destruct IH as [[ds [Hds Hlen]] | [e [x' [He [Hin Hx']]]]].
      * left. exists (d :: ds). rewrite Hds. simpl.
        split; [reflexivity | rewrite Hlen; reflexivity].
      * right. exists e, x'. rewrite He. simpl.
        split; [reflexivity | split; [right; assumption | assumption]].
    + right. exists e, x. split; [reflexivity|].
      split; [left; reflexivity | assumption].
Qed.

Lemma size_range_inbounds :
  Forall (fun i => 0 <= i < size obj) (Py.range 0 (size obj)).
Proof. apply Forall_forall. intros i Hi. apply range_In in Hi. assumption. Qed.

End PandasFacts.

(** X9: [convert_to_pandas] does not return when the master clock is None,
    although the alignment accepts None: the columns of the lines are
    assigned, and the list of the dates of the master clock then raises a
    TypeError (unless a column assignment has raised before). *)
Theorem X9_convert_to_pandas_needs_master_clock :
  forall (DataFrame date : Type) (pd_DataFrame : DataFrame)
         (setitem : DataFrame -> string -> @column date -> result DataFrame)
         (num2date : float -> result date)
         (obj : lineseries) (start end_ : option Z) (name_prefix : string),
  exists e,
    convert_to_pandas DataFrame date pd_DataFrame setitem num2date None obj
      start end_ name_prefix = Err e
    /\ (e = TypeError NotIterable
        \/ exists df name c, setitem df name c = Err e).
Proof.
  intros. unfold convert_to_pandas.
  destruct (add_lines_None DataFrame date setitem obj start end_ name_prefix
              (Py.range 0 (size obj)) pd_DataFrame)
    as [[df' Hok] | [e [df0 [name [c [Herr Hset]]]]]].
  - rewrite Hok. simpl. exists (TypeError NotIterable).
    split; [reflexivity | left; reflexivity].
  - rewrite Herr. simpl. exists e. split; [reflexivity|].
    right. exists df0, name, c. assumption.
Qed.

(** X10: with a master clock, [convert_to_pandas] raises only what a column
    assignment of the frame or [num2date] raises: the alignment of the lines
    is never the cause. *)
Theorem X10_convert_to_pandas_raises_only_external_errors :
  forall (DataFrame date : Type) (pd_DataFrame : DataFrame)
         (setitem : DataFrame -> string -> @column date -> result DataFrame)
         (num2date : float -> result date)
         (mc : list float)
         (obj : lineseries) (start end_ : option Z) (name_prefix : string)
         (e : raised),
    convert_to_pandas DataFrame date pd_DataFrame setitem num2date (Some mc)
      obj start end_ name_prefix = Err e ->
    (exists df name c, setitem df name c = Err e)
    \/ (exists x, In x mc /\ num2date x = Err e).
Proof.
  intros DataFrame date pd_DataFrame setitem num2date mc obj start end_
    name_prefix e. unfold convert_to_pandas.
  destruct (add_lines_Some DataFrame date setitem obj start end_ name_prefix
              mc (fun _ => True) (Py.range 0 (size obj))
              (size_range_inbounds obj) (fun _ _ _ _ _ _ _ => I)
              pd_DataFrame I)
    as [[df' [Hok _]] | [e' [df0 [name [c [Herr Hset]]]]]].
  - rewrite Hok. simpl.
    destruct (num2dates_cases date num2date mc)
      as [[ds [Hds _]] | [e' [x [He [Hin Hx]]]]].
    + rewrite Hds. simpl. intros Hs. left. eauto.
    + rewrite He. simpl. intros E. inversion E; subst e'. right. eauto.
  - rewrite Herr. simpl. intros E. inversion E; subst e'. left. eauto.
Qed.

(** X10 on a frame whose column assignment always raises. *)
Lemma X10_convert_to_pandas_raises_only_external_errors_witness :
  (exists (df : unit) (name : string) (c : @column float),
     (fun (_ : unit) (_ : string) (_ : @column float) =>
        @Err unit (External "pandas")) df name c
     = Err (External "pandas"))
  \/ (exists x, In x [PrimFloat.one]
                /\ @Ok float x = Err (External "pandas")).
Proof.
  apply (X10_convert_to_pandas_raises_only_external_errors
           unit float tt
           (fun (_ : unit) (_ : string) (_ : @column float) =>
              @Err unit (External "pandas"))
           (@Ok float) [PrimFloat.one]
           {| size := 1; lines_at := fun _ => mkLine (fun _ _ => []);
              _getlinealias := fun _ => "close"%string;
              lines_datetime := mkLine (fun _ _ => []) |}
           None None ""%string (External "pandas")).
  reflexivity.
Defined.

(** X11: with a master clock, every column that [convert_to_pandas] assigns
    holds exactly one entry per master timestamp: a property of the frame
    that holds of the empty frame and that is kept by every assignment of
    such a column (the aligned values of a line that is not the datetime
    line, under the prefixed alias of the line; the dates of the master
    clock, under the prefixed name datetime) holds of the frame returned. *)
Theorem X11_convert_to_pandas_columns_follow_master_clock :
  forall (DataFrame date : Type) (pd_DataFrame : DataFrame)
         (setitem : DataFrame -> string -> @column date -> result DataFrame)
         (num2date : float -> result date)
         (mc : list float)
         (obj : lineseries) (start end_ : option Z) (name_prefix : string)
         (Inv : DataFrame -> Prop) (df : DataFrame),
    Inv pd_DataFrame ->
    (forall df0 name c df1,
       Inv df0 -> setitem df0 name c = Ok df1 ->
       column_length c = List.length mc ->
       data_column mc obj start end_ name_prefix name c
       \/ dates_column num2date mc name_prefix name c ->
       Inv df1) ->
    convert_to_pandas DataFrame date pd_DataFrame setitem num2date (Some mc)
      obj start end_ name_prefix = Ok df ->
    Inv df.
Proof.
  intros DataFrame date pd_DataFrame setitem num2date mc obj start end_
    name_prefix Inv df Hinit Hkeep. unfold convert_to_pandas.
  destruct (add_lines_Some DataFrame date setitem obj start end_ name_prefix
              mc Inv (Py.range 0 (size obj)) (size_range_inbounds obj))
    with (df := pd_DataFrame)
    as [[df' [Hok HInv]] | [e' [df0 [name [c [Herr Hset]]]]]].
  - intros df0 name c df1 H0 Hs Hc. apply (Hkeep df0 name c df1 H0 Hs).
    + destruct Hc as [i [vals [_ [_ [_ [Hcv [_ Hlen]]]]]]]. subst c. assumption.
    + left. assumption.
  - assumption.
  - rewrite Hok. simpl.
    destruct (num2dates_cases date num2date mc)
      as [[ds [Hds Hlen]] | [e' [x [He _]]]].
    + rewrite Hds. simpl. intros Hs.
      apply (Hkeep df' _ _ df HInv Hs); [assumption|].
      right. exists ds. repeat split; assumption.
    + rewrite He. simpl. discriminate.
  - rewrite Herr. simpl. discriminate.
Qed.

Open Scope float_scope.

(** X11 on a series with the lines datetime and close, tabulated on the
    master clock 10, 20, 30 into a frame that records its columns: each of
    the recorded columns has three entries. *)
Lemma X11_convert_to_pandas_columns_follow_master_clock_witness :
  Forall (fun nc : string * @column float => column_length (snd nc) = 3%nat)
    [("x_close"%string, FloatColumn [1; float_nan; 3]);
     ("x_datetime"%string, DateColumn [10; 20; 30])].
Proof.
  apply (X11_convert_to_pandas_columns_follow_master_clock
           (list (string * @column float)) float [] record_setitem (@Ok float)
           [10; 20; 30]
           {| size := 2;
              lines_at := fun i => if (i =? 0)%Z
                                   then mkLine (fun _ _ => [10; 30])
                                   else mkLine (fun _ _ => [1; 3]);
              _getlinealias := fun i => if (i =? 0)%Z then "datetime"%string
                                        else "close"%string;
              lines_datetime := mkLine (fun _ _ => [10; 30]) |}
           None None "x_"%string
           (Forall (fun nc => column_length (snd nc) = 3%nat))).
  - constructor.
  - intros df0 name c df1 H0 Hs Hlen _. unfold record_setitem in Hs.
    inversion Hs; subst df1. apply Forall_app. split; [assumption|].
    constructor; [exact Hlen | constructor].
  - reflexivity.
Defined.

Close Scope float_scope.

(** ** Alignment onto a master clock that covers the series clock *)

Lemma subseq_In {A : Type} (l l' : list A) (x : A) :
  subseq l l' -> In x l -> In x l'.
Proof.
  induction 1 as [|y l l' H IH|y l l' H IH]; intros Hin.
  - assumption.
  - right. apply IH. assumption.
  - destruct Hin as [E | Hin]; [left; assumption | right; apply IH; assumption].
Qed.

Lemma covered_run (mcsuf : list float) :
  forall (cpre csuf spre ssuf : list float) (st : locals),
    subseq csuf mcsuf ->
    StronglySorted strictly_before mcsuf ->
    Forall is_number mcsuf ->
    List.length cpre = List.length spre ->
    List.length csuf = List.length ssuf ->
    next_start_idx st = Py.len cpre ->
    exists st',
      for_master (spre ++ ssuf) (cpre ++ csuf)
        (Py.len (cpre ++ csuf) - Py.len (spre ++ ssuf)) false mcsuf st
      = Returns st'
      /\ nanfilt (new_line st') = nanfilt (new_line st) ++ nanfilt ssuf.
Proof.
  induction mcsuf as [|m mcsuf IH];
    intros cpre csuf spre ssuf st Hsub Hsorted Hnum Hpre Hsuf Hns.
  - inversion Hsub; subst. destruct ssuf; [|discriminate].
    exists st. simpl. rewrite app_nil_r. split; reflexivity.
  - inversion Hsorted as [|? ? Hsorted' Hm]; subst.
    inversion Hnum as [|? ? Hmnum Hnum']; subst.
    pose proof (len_nonneg cpre) as Hcpre.
    inversion Hsub as [|? ? ? Hsub'|? ? ? Hsub']; subst.
    + (* the master timestamp is not one of the series clock *)
      assert (Hmiss : step (spre ++ ssuf) (cpre ++ csuf)
                        (Py.len (cpre ++ csuf) - Py.len (spre ++ ssuf))
                        false m st = Returns (miss_locals false st)).
      { apply step_of_scan_miss. rewrite Hns.
        destruct csuf as [|t csuf'].
        - rewrite app_nil_r, range_nil by lia. reflexivity.
        - rewrite range_cons by (rewrite len_app; unfold Py.len; simpl; lia).
          assert (Hbefore : strictly_before m t).
          { rewrite Forall_forall in Hm. apply Hm.
            apply (subseq_In _ _ t Hsub'). left. reflexivity. }
          destruct Hbefore as [Hlt Hne].
          apply scan_break with t; [apply getitem_app_mid | | ]; assumption. }
      simpl for_master. rewrite Hmiss. simpl bind.
      destruct (IH cpre csuf spre ssuf (miss_locals false st))
        as [st' [Hrun Hnl]]; try assumption.
      exists st'. split; [assumption|]. rewrite Hnl. simpl.
      unfold fill_value. rewrite andb_false_r, nanfilt_nan. reflexivity.
    + (* the master timestamp is the next entry of the series clock *)
      destruct ssuf as [|x ssuf]; [discriminate|].
      simpl in Hsuf. injection Hsuf as Hsuf.
      rename l into csuf.
      assert (Hhit : step (spre ++ x :: ssuf) (cpre ++ m :: csuf)
                       (Py.len (cpre ++ m :: csuf) - Py.len (spre ++ x :: ssuf))
                       false m st
                     = Returns (hit_locals (spre ++ x :: ssuf)
                                  (Py.len (cpre ++ m :: csuf)
                                   - Py.len (spre ++ x :: ssuf))
                                  st (Py.len cpre))).
      { apply step_reach with m; try lia.
        - apply getitem_app_mid.
        - assumption. }
      simpl for_master. rewrite Hhit. simpl bind.
      replace (cpre ++ m :: csuf) with ((cpre ++ [m]) ++ csuf)
        by (rewrite <- app_assoc; reflexivity).
      replace (spre ++ x :: ssuf) with ((spre ++ [x]) ++ ssuf)
        by (rewrite <- app_assoc; reflexivity).
      destruct (IH (cpre ++ [m]) csuf (spre ++ [x]) ssuf
                  (hit_locals ((spre ++ [x]) ++ ssuf)
                     (Py.len ((cpre ++ [m]) ++ csuf)
                      - Py.len ((spre ++ [x]) ++ ssuf)) st (Py.len cpre)))
        as [st' [Hrun Hnl]]; try assumption.
      * rewrite !length_app. simpl. lia.
      * simpl. rewrite len_app. reflexivity.
      * exists st'. split; [assumption|]. rewrite Hnl. simpl new_line.
        rewrite nanfilt_app, <- app_assoc. f_equal.
        change (nanfilt (x :: ssuf)) with (nanfilt ([x] ++ ssuf)).
        rewrite nanfilt_app. f_equal. f_equal. f_equal.
        unfold emitted.
        replace (Py.len ((cpre ++ [m]) ++ csuf) - Py.len ((spre ++ [x]) ++ ssuf))
          with 0 by (rewrite !len_app; unfold Py.len; simpl; lia).
        replace (Py.len cpre - 0 <? 0) with false
          by (symmetry; apply Z.ltb_ge; lia).
        replace (Z.to_nat (Py.len cpre - 0)) with (List.length spre)
          by (unfold Py.len; lia).
        rewrite <- app_assoc. simpl.
        rewrite app_nth2 by lia. rewrite Nat.sub_diag. reflexivity.
Qed.

(** X12: when the master clock is strictly increasing, holds no NaN and
    covers the series clock (the series clock is the master clock with
    timestamps left out), the alignment without the fill loses no value of a
    series as long as its clock: the output holds NaN at the timestamps left
    out and the values of the series, in order, at the others, so what
    [nanfilt] keeps of the output is what it keeps of the series. *)
Theorem X12_covering_master_clock_keeps_the_series :
  forall (s c mc : list float),
    List.length s = List.length c ->
    subseq c mc ->
    StronglySorted strictly_before mc ->
    Forall is_number mc ->
    exists out,
      convert_to_master_clock s c (Some mc) false = Returns out
      /\ List.length out = List.length mc
      /\ nanfilt out = nanfilt s.
Proof.
  intros s c mc Hlen Hsub Hsorted Hnum.
  destruct (covered_run mc [] c [] s init_locals)
    as [st [Hrun Hnl]]; try assumption; try reflexivity; [congruence|].
  simpl in Hrun, Hnl. exists (new_line st).
  assert (Hst : locals_after s c false mc = Returns st) by exact Hrun.
  split; [apply convert_of_locals; assumption|]. split; [|assumption].
  destruct (locals_after_total s c false mc) as [st' [Hst' [Hl _]]].
  rewrite Hst in Hst'. inversion Hst'; subst st'. assumption.
Qed.

Open Scope float_scope.

(** X12 on the series 1, 3 with the clock 10, 30, aligned onto the master
    clock 10, 20, 30. *)
Lemma X12_covering_master_clock_keeps_the_series_witness :
  exists out,
    convert_to_master_clock [1; 3] [10; 30] (Some [10; 20; 30]) false
    = Returns out
    /\ List.length out = List.length [10; 20; 30]
    /\ nanfilt out = nanfilt [1; 3].
Proof.
  apply (X12_covering_master_clock_keeps_the_series [1; 3] [10; 30]
           [10; 20; 30]).
  - reflexivity.
  - apply subseq_take. apply subseq_skip. apply subseq_take. apply subseq_nil.
  - repeat constructor.
  - repeat constructor.
Defined.

Close Scope float_scope.
